(** * 7-ELEVEN store export: the data_loader module

    A shallow embedding of [src/python_script/data_loader.py] and the
    properties of its coordinate normaliser, record mapper and export loop.

    Conventions of the model.
    - A Python [str] is a [string] holding the UTF-8 encoding of the text.
    - A Python [float] is an IEEE 754 binary64 number: [spec_float] with
      precision 53 and maximal exponent 1024, rounding to nearest even.
    - A Python [dict] is a [gmap] with [string] keys.
    - An exception caught by the program is an [option].
    - The input file is given by the element tree that [ElementTree] parses
      it to; the output file by its header and the cells of its data rows,
      before the [csv] module turns them into text. *)

From Stdlib Require Import ZArith Ascii List Lia.
From Stdlib Require Import Floats.SpecFloat.
From stdpp Require Import base option list strings gmap pretty.

Local Open Scope Z_scope.

(** ** Binary64 arithmetic *)

Module F64.

Definition prec : Z := 53.
Definition emax : Z := 1024.

Definition float : Type := spec_float.

Definition nan : float := S754_nan.
Definition infinity (neg : bool) : float := S754_infinity neg.

Definition abs : float -> float := SFabs.
Definition div : float -> float -> float := SFdiv prec emax.
Definition ltb : float -> float -> bool := SFltb.
Definition leb : float -> float -> bool := SFleb.
(** [x > y] *)
Definition gtb (x y : float) : bool := ltb y x.

(** The binary64 number nearest to [num / den] (ties to even), with the
    sign [neg]; [num >= 0] and [den > 0]. *)
Definition of_ratio (neg : bool) (num den : Z) : float :=
  if num =? 0 then S754_zero neg
  else
    let '(q, e, l) := SFdiv_core_binary prec emax num 0 den 0 in
    binary_round_aux prec emax neg q e l.

(** The binary64 number nearest to [m * 10 ^ e], as a decimal numeral
    denotes it. *)
Definition of_decimal (neg : bool) (m e : Z) : float :=
  if 0 <=? e then of_ratio neg (m * 10 ^ e) 1
  else of_ratio neg m (10 ^ (- e)).

Definition is_finite (x : float) : bool :=
  match x with
  | S754_zero _ | S754_finite _ _ _ => true
  | _ => false
  end.

End F64.

Abbreviation float := F64.float.

(** ** Text *)

Module Text.

Definition chars (s : string) : list ascii := String.list_ascii_of_string s.
Definition text (l : list ascii) : string := String.string_of_list_ascii l.

Definition code (c : ascii) : N := N_of_ascii c.

(** UTF-8 encoding of a code point. *)
Definition utf8 (cp : N) : list ascii :=
  (if cp <? 0x80 then [ascii_of_N cp]
   else if cp <? 0x800 then
     [ascii_of_N (0xC0 + cp / 64); ascii_of_N (0x80 + cp mod 64)]
   else if cp <? 0x10000 then
     [ascii_of_N (0xE0 + cp / 4096); ascii_of_N (0x80 + (cp / 64) mod 64);
      ascii_of_N (0x80 + cp mod 64)]
   else
     [ascii_of_N (0xF0 + cp / 262144); ascii_of_N (0x80 + (cp / 4096) mod 64);
      ascii_of_N (0x80 + (cp / 64) mod 64); ascii_of_N (0x80 + cp mod 64)])%N.

(** The code points of a UTF-8 text; a truncated last sequence reads as
    U+FFFD. *)
Fixpoint code_points (l : list ascii) : list N :=
  (match l with
   | [] => []
   | a :: l1 =>
       if code a <? 0x80 then code a :: code_points l1
       else
         match l1 with
         | [] => [0xFFFD]
         | b :: l2 =>
             if code a <? 0xE0 then
               ((code a - 0xC0) * 64 + (code b - 0x80)) :: code_points l2
             else
               match l2 with
               | [] => [0xFFFD]
               | c :: l3 =>
                   if code a <? 0xF0 then
                     ((code a - 0xE0) * 4096 + (code b - 0x80) * 64
                      + (code c - 0x80)) :: code_points l3
                   else
                     match l3 with
                     | [] => [0xFFFD]
                     | d :: l4 =>
                         ((code a - 0xF0) * 262144 + (code b - 0x80) * 4096
                          + (code c - 0x80) * 64 + (code d - 0x80))
                           :: code_points l4
                     end
               end
         end
   end)%N.

(** The code points for which [str.isspace] holds: what [str.strip]
    removes when called without argument. *)
Definition space_code_points : list N :=
  [0x09; 0x0A; 0x0B; 0x0C; 0x0D; 0x1C; 0x1D; 0x1E; 0x1F; 0x20; 0x85; 0xA0;
   0x1680; 0x2000; 0x2001; 0x2002; 0x2003; 0x2004; 0x2005; 0x2006; 0x2007;
   0x2008; 0x2009; 0x200A; 0x2028; 0x2029; 0x202F; 0x205F; 0x3000]%N.

Definition is_space (cp : N) : bool := bool_decide (cp ∈ space_code_points).

Definition spaces : list (list ascii) := utf8 <$> space_code_points.

Definition ascii_eqb (a b : ascii) : bool := Ascii.eqb a b.

(** [drop_prefix p l]: what follows [p] at the head of [l]. *)
Fixpoint drop_prefix (p l : list ascii) : option (list ascii) :=
  match p, l with
  | [], _ => Some l
  | a :: p', b :: l' => if ascii_eqb a b then drop_prefix p' l' else None
  | _ :: _, [] => None
  end.

Fixpoint drop_one (pats : list (list ascii)) (l : list ascii)
  : option (list ascii) :=
  match pats with
  | [] => None
  | p :: pats' =>
      match drop_prefix p l with
      | Some r => Some r
      | None => drop_one pats' l
      end
  end.

(** Remove leading occurrences of the patterns; [n] bounds the number of
    removals. *)
Fixpoint lstrip_with (pats : list (list ascii)) (n : nat) (l : list ascii)
  : list ascii :=
  match n with
  | O => l
  | S n' =>
      match drop_one pats l with
      | Some r => lstrip_with pats n' r
      | None => l
      end
  end.

Definition rstrip_with (pats : list (list ascii)) (n : nat) (l : list ascii)
  : list ascii :=
  reverse (lstrip_with (reverse <$> pats) n (reverse l)).

(** Remove the patterns at both ends, as often as they occur: each
    removal takes at least one character, so [length l] removals are
    never exceeded. *)
Definition strip_with (pats : list (list ascii)) (l : list ascii)
  : list ascii :=
  let l' := lstrip_with pats (length l) l in
  rstrip_with pats (length l') l'.

(** [s.strip()] *)
Definition strip (s : string) : string := text (strip_with spaces (chars s)).

(** [needle in hay] on texts. *)
Fixpoint contains (needle hay : list ascii) : bool :=
  match drop_prefix needle hay with
  | Some _ => true
  | None =>
      match hay with
      | [] => false
      | _ :: hay' => contains needle hay'
      end
  end.

Definition py_in (needle hay : string) : bool :=
  contains (chars needle) (chars hay).

(** [s.lower()] on the letters A-Z. Outside ASCII only U+212A (KELVIN
    SIGN) lower-cases to one ASCII letter, [k], which occurs neither in
    the record tag nor in a key that the record mapper reads. *)
Definition lower_char (c : ascii) : ascii :=
  if ((0x41 <=? code c) && (code c <=? 0x5A))%N
  then ascii_of_N (code c + 32) else c.

Definition lower (s : string) : string := text (lower_char <$> chars s).

(** [not s] *)
Definition is_empty (s : string) : bool :=
  match s with EmptyString => true | _ => false end.

(** [sep.join(parts)] *)
Fixpoint join (sep : string) (parts : list string) : string :=
  match parts with
  | [] => ""
  | [p] => p
  | p :: parts' => p +:+ sep +:+ join sep parts'
  end.

End Text.

(** ** The [float] constructor on text *)

Module PyFloat.
Import Text.

(** The digit zero of every decimal digit system of Unicode 14.0 (the
    data of CPython 3.11); the nine code points after each are its digits
    1 to 9. *)
Definition decimal_zeros : list N :=
  [0x30; 0x660; 0x6F0; 0x7C0; 0x966; 0x9E6; 0xA66; 0xAE6; 0xB66; 0xBE6;
   0xC66; 0xCE6; 0xD66; 0xDE6; 0xE50; 0xED0; 0xF20; 0x1040; 0x1090; 0x17E0;
   0x1810; 0x1946; 0x19D0; 0x1A80; 0x1A90; 0x1B50; 0x1BB0; 0x1C40; 0x1C50;
   0xA620; 0xA8D0; 0xA900; 0xA9D0; 0xA9F0; 0xAA50; 0xABF0; 0xFF10; 0x104A0;
   0x10D30; 0x11066; 0x110F0; 0x11136; 0x111D0; 0x112F0; 0x11450; 0x114D0;
   0x11650; 0x116C0; 0x11730; 0x118E0; 0x11950; 0x11C50; 0x11D50; 0x11DA0;
   0x16A60; 0x16AC0; 0x16B50; 0x1D7CE; 0x1D7D8; 0x1D7E2; 0x1D7EC; 0x1D7F6;
   0x1E140; 0x1E2F0; 0x1E950; 0x1FBF0]%N.

Definition decimal (cp : N) : option N :=
  (λ z, cp - z)%N <$>
    head (filter (λ z, z <= cp < z + 10)%N decimal_zeros).

(** White space becomes a space, a decimal digit its ASCII digit; the
    text is cut at the first other character outside ASCII, which is
    replaced by a question mark. *)
Fixpoint to_ascii (cps : list N) : list ascii :=
  match cps with
  | [] => []
  | cp :: cps' =>
      if (cp <? 127)%N then ascii_of_N cp :: to_ascii cps'
      else if is_space cp then " "%char :: to_ascii cps'
      else
        match decimal cp with
        | Some d => ascii_of_N (0x30 + d) :: to_ascii cps'
        | None => ["?"%char]
        end
  end.

Definition is_digit (c : ascii) : bool :=
  ((0x30 <=? code c) && (code c <=? 0x39))%N.

Definition digit_value (c : ascii) : Z := Z.of_N (code c) - 0x30.

Definition digits_value (ds : list ascii) : Z :=
  fold_left (fun acc d => 10 * acc + digit_value d) ds 0.

(** Leading digits and the rest. *)
Fixpoint span_digits (l : list ascii) : list ascii * list ascii :=
  match l with
  | c :: l' =>
      if is_digit c then
        let '(ds, r) := span_digits l' in (c :: ds, r)
      else ([], l)
  | [] => ([], [])
  end.

(** An underscore is accepted between two digits only, and is dropped.
    [prev] is the character before [l]. *)
Fixpoint drop_underscores (prev : ascii) (l : list ascii)
  : option (list ascii) :=
  match l with
  | [] => if ascii_eqb prev "_" then None else Some []
  | c :: l' =>
      if ascii_eqb c "_" then
        if is_digit prev then drop_underscores c l' else None
      else if ascii_eqb prev "_" && negb (is_digit c) then None
      else cons c <$> drop_underscores c l'
  end.

(** The white space that the constructor itself trims: tab, line feed,
    vertical tab, form feed, carriage return, space. *)
Definition c_spaces : list (list ascii) :=
  utf8 <$> [0x09; 0x0A; 0x0B; 0x0C; 0x0D; 0x20]%N.

Definition read_sign (l : list ascii) : bool * list ascii :=
  match l with
  | c :: l' =>
      if ascii_eqb c "-" then (true, l')
      else if ascii_eqb c "+" then (false, l')
      else (false, l)
  | [] => (false, [])
  end.

(** [inf], [infinity] and [nan], in any letter case, after the sign. *)
Definition special (neg : bool) (l : list ascii) : option float :=
  let w := text (lower_char <$> l) in
  if decide (w = "inf" \/ w = "infinity") then Some (F64.infinity neg)
  else if decide (w = "nan") then Some F64.nan
  else None.

(** A decimal numeral: digits with an optional point, at least one digit,
    then an optional exponent; the whole text must be used. The result is
    sign, digits as an integer, decimal exponent. *)
Definition numeral (neg : bool) (l : list ascii) : option (bool * Z * Z) :=
  let '(ip, l1) := span_digits l in
  let '(fp, l2) :=
    match l1 with
    | c :: r => if ascii_eqb c "." then span_digits r else ([], l1)
    | [] => ([], l1)
    end in
  let m := digits_value (ip ++ fp) in
  let scale := Z.of_nat (length fp) in
  match ip ++ fp with
  | [] => None
  | _ :: _ =>
      match l2 with
      | [] => Some (neg, m, - scale)
      | c :: r =>
          if ascii_eqb c "e" || ascii_eqb c "E" then
            let '(eneg, r1) := read_sign r in
            match span_digits r1 with
            | (_ :: _, _ :: _) | ([], _) => None
            | (ed, []) =>
                let e := digits_value ed in
                Some (neg, m, (if eneg then - e else e) - scale)
            end
          else None
      end
  end.

(** [float(s)] for a text [s]; [None] stands for [ValueError]. *)
Definition of_str (s : string) : option float :=
  l ← drop_underscores "000" (to_ascii (code_points (chars s)));
  let '(neg, l') := read_sign (strip_with c_spaces l) in
  match special neg l' with
  | Some x => Some x
  | None =>
      '(sg, m, e) ← numeral neg l';
      Some (F64.of_decimal sg m e)
  end.

(** A float literal of the program text. *)
Definition lit (s : string) : float := default F64.nan (of_str s).

End PyFloat.

(** ** Values held by the rows *)

(** What a cell of the canonical row, and of the written table, holds. *)
Inductive value : Type :=
  | VStr (s : string)
  | VFloat (x : float)
  | VBool (b : bool).

(** What the audit row holds: texts and one boolean. *)
Inductive audit_value : Type :=
  | AStr (s : string)
  | ABool (b : bool).

Definition cell (a : audit_value) : value :=
  match a with
  | AStr s => VStr s
  | ABool b => VBool b
  end.

(** [a or b] on audit values. *)
Definition audit_or (a b : audit_value) : audit_value :=
  match a with
  | AStr s => if Text.is_empty s then b else a
  | ABool t => if t then a else b
  end.

(** [str(a)] *)
Definition audit_str (a : audit_value) : string :=
  match a with
  | AStr s => s
  | ABool true => "True"
  | ABool false => "False"
  end.

(** [v == ""], for the result of [dict.get]: a float, a boolean and [None]
    differ from every text. *)
Definition is_empty_text (v : option value) : bool :=
  match v with
  | Some (VStr s) => Text.is_empty s
  | _ => false
  end.

(** [float(v)]; [None] stands for the exception raised ([ValueError] on a
    text that is no numeral, [TypeError] on [None]). *)
Definition py_float (v : option value) : option float :=
  match v with
  | Some (VFloat x) => Some x
  | Some (VBool b) => Some (PyFloat.lit (if b then "1" else "0"))
  | Some (VStr s) => PyFloat.of_str s
  | None => None
  end.

(** ** Normalisers *)

#[local] Unset Elimination Schemes.
(** An XML element as [ElementTree] builds it: tag, text before the first
    child, children (comments and processing instructions are not part of
    the tree). *)
Inductive element : Type :=
  | Element (tag : string) (text : option string) (children : list element).
#[local] Set Elimination Schemes.

Definition tag_of (e : element) : string :=
  match e with Element t _ _ => t end.
Definition text_of (e : element) : option string :=
  match e with Element _ t _ => t end.
Definition children_of (e : element) : list element :=
  match e with Element _ _ c => c end.

Definition _safe_text (elem : option element) : string :=
  match elem with
  | None => ""
  | Some e =>
      match text_of e with
      | None => ""
      | Some t => Text.strip t
      end
  end.

Definition _parse_float (s : string) : option float :=
  let s := Text.strip s in
  if Text.is_empty s then None
  else PyFloat.of_str s.

(** The constants [1000] and [1_000_000.0] of the heuristic; a float
    compares with the integer 1000 as with the float 1000.0. *)
Definition thousand : float := Eval vm_compute in PyFloat.lit "1000".
Definition million : float := Eval vm_compute in PyFloat.lit "1_000_000.0".

(** One axis of the magnitude heuristic. *)
Definition rescale (v : float) : float :=
  if F64.gtb (F64.abs v) thousand then F64.div v million else v.

Definition _normalize_lng_lat (x_raw y_raw : string)
  : option float * option float :=
  match _parse_float x_raw, _parse_float y_raw with
  | Some x, Some y => (Some (rescale x), Some (rescale y))
  | _, _ => (None, None)
  end.

(** ** Streaming record extractor *)

Abbreviation store := (gmap string string).

Definition _element_to_dict_case_insensitive (parent : element) : store :=
  fold_left
    (fun out child =>
       <[Text.lower (Text.strip (tag_of child)) := _safe_text (Some child)]> out)
    (children_of parent) ∅.

Definition is_geoposition (tag : string) : bool :=
  bool_decide (Text.lower (Text.strip tag) = "geoposition").

(** The end-of-element events of a subtree, in document order: the records
    yielded, and the element as it is left in its parent, emptied by
    [elem.clear()] when it was yielded. *)
Fixpoint visit (e : element) : list store * element :=
  match e with
  | Element tag text children =>
      let visited := map visit children in
      let e' := Element tag text (snd <$> visited) in
      let yielded := concat (fst <$> visited) in
      if is_geoposition tag then
        (yielded ++ [_element_to_dict_case_insensitive e'], Element tag None [])
      else (yielded, e')
  end.

Definition iter_711_stores (doc : element) : list store := fst (visit doc).

(** ** Record mapper *)

(** [d.get(key, default_)] *)
Definition get (d : store) (key default_ : string) : string :=
  default default_ (d !! key).

Definition brand : string := "7-ELEVEN".
Definition marker : string := "02廁所".

Definition desc_parts (address tel op_time : string) : list string :=
  (if Text.is_empty address then [] else ["地址：" +:+ address]) ++
  (if Text.is_empty tel then [] else ["電話：" +:+ tel]) ++
  (if Text.is_empty op_time then [] else ["營業時間：" +:+ op_time]).

Definition coordinate (c : option float) : value :=
  match c with
  | Some x => VFloat x
  | None => VStr ""
  end.

Definition build_location_row (st : store)
  : gmap string value * gmap string audit_value :=
  let poiid := get st "poiid" "" in
  let name := Text.strip (get st "poiname" "") in
  let address := Text.strip (get st "address" "") in
  let tel := Text.strip (get st "telno" "") in
  let op_time := Text.strip (get st "op_time" "") in
  let services := Text.strip (get st "storeimagetitle" "") in
  let '(lng, lat) := _normalize_lng_lat (get st "x" "") (get st "y" "") in
  let has_toilet := Text.py_in marker services in
  let parts := desc_parts address tel op_time in
  let description :=
    match parts with
    | [] => None
    | _ :: _ => Some (Text.join "；" parts +:+ "；")
    end in
  let prisma_row : gmap string value :=
    <["name" :=
        VStr (if Text.is_empty name then brand else brand +:+ " " +:+ name)]>
    (<["description" :=
        VStr (match description with
              | Some d => if Text.is_empty d then "" else d
              | None => ""
              end)]>
    (<["type" := VStr "TOILET"]>
    (<["lat" := coordinate lat]>
    (<["lng" := coordinate lng]>
    (<["floor" := VStr ""]>
    (<["hasTissue" := VBool false]>
    (<["hasDryer" := VBool false]>
    (<["hasSeat" := VBool false]>
    (<["hasDiaperTable" := VBool false]>
    (<["hasWaterDispenser" := VBool false]>
    (<["hasAutoDoor" := VBool false]>
    (<["hasHandrail" := VBool false]> ∅)))))))))))) in
  let debug_row : gmap string audit_value :=
    <["source" := AStr "7-ELEVEN iMapSDKOutput"]>
    (<["poiid" := AStr poiid]>
    (<["poiname" := AStr name]>
    (<["address" := AStr address]>
    (<["telno" := AStr tel]>
    (<["op_time" := AStr op_time]>
    (<["services" := AStr services]>
    (<["x_raw" := AStr (get st "x" "")]>
    (<["y_raw" := AStr (get st "y" "")]>
    (<["has_toilet_service_tag" := ABool has_toilet]> ∅))))))))) in
  (prisma_row, debug_row).

(** ** Export pipeline *)

Definition prisma_fields : list string :=
  ["name"; "description"; "type"; "lat"; "lng"; "floor"; "hasTissue";
   "hasDryer"; "hasSeat"; "hasDiaperTable"; "hasWaterDispenser";
   "hasAutoDoor"; "hasHandrail"].

Definition debug_fields : list string :=
  ["source"; "poiid"; "poiname"; "address"; "telno"; "op_time"; "services";
   "x_raw"; "y_raw"; "has_toilet_service_tag"].

Definition fieldnames (include_debug : bool) : list string :=
  prisma_fields ++ (if include_debug then debug_fields else []).

(** The local counters of [export_csv]. *)
Record counters : Type := Counters {
  total : nat;
  written : nat;
  missing_coord : nat;
  suspicious_coord : nat
}.

(** What the loop has produced so far: the counters, the data rows handed
    to the writer (cells in column order), the lines printed. *)
Record run : Type := Run {
  count : counters;
  rows : list (list value);
  printed : list string
}.

(** [csv.DictWriter.writerow]: the cells of a row in the order of the
    columns, an absent key giving the empty text. *)
Definition writerow (names : list string) (row : gmap string value)
  : list value :=
  (fun k => default (VStr "") (row !! k)) <$> names.

Definition lat_min : float := Eval vm_compute in PyFloat.lit "20.0".
Definition lat_max : float := Eval vm_compute in PyFloat.lit "27.0".
Definition lng_min : float := Eval vm_compute in PyFloat.lit "118.0".
Definition lng_max : float := Eval vm_compute in PyFloat.lit "123.5".

(** [20.0 <= lat_f <= 27.0 and 118.0 <= lng_f <= 123.5] *)
Definition in_taiwan (lat_f lng_f : float) : bool :=
  F64.leb lat_min lat_f && F64.leb lat_f lat_max &&
  F64.leb lng_min lng_f && F64.leb lng_f lng_max.

(** The coordinate bookkeeping of one written record. *)
Definition bookkeeping (lat lng : option value) (c : counters) : counters :=
  if is_empty_text lat || is_empty_text lng then
    Counters (total c) (written c) (S (missing_coord c)) (suspicious_coord c)
  else
    match py_float lat, py_float lng with
    | Some lat_f, Some lng_f =>
        if negb (in_taiwan lat_f lng_f) then
          Counters (total c) (written c) (missing_coord c)
                   (S (suspicious_coord c))
        else c
    | _, _ => c
    end.

(** The filter of the loop, from the audit row. *)
Definition has_toilet_of (debug_row : gmap string audit_value) : bool :=
  let services :=
    audit_str (audit_or (default (AStr "") (debug_row !! "services"))
                        (AStr "")) in
  Text.py_in marker services.

Definition separator : string := Text.text (replicate 60 "-"%char).

(** One turn of the loop over the records. *)
Definition export_step (only_toilets include_debug : bool)
    (r : run) (st : store) : run :=
  let c := count r in
  let c := Counters (S (total c)) (written c) (missing_coord c)
                    (suspicious_coord c) in
  let '(prisma_row, debug_row) := build_location_row st in
  if only_toilets && negb (has_toilet_of debug_row) then
    Run c (rows r) (printed r)
  else
    let c := bookkeeping (prisma_row !! "lat") (prisma_row !! "lng") c in
    let row :=
      if include_debug then (cell <$> debug_row) ∪ prisma_row
      else prisma_row in
    let c := Counters (total c) (S (written c)) (missing_coord c)
                      (suspicious_coord c) in
    Run c (rows r ++ [writerow (fieldnames include_debug) row])
        (printed r ++ [separator]).

Definition export_loop (only_toilets include_debug : bool)
    (stores : list store) : run :=
  fold_left (export_step only_toilets include_debug) stores
            (Run (Counters 0 0 0 0) [] []).

Definition bool_str (b : bool) : string := if b then "True" else "False".

(** The lines printed after the loop. *)
Definition report (input_xml output_csv : string) (only_toilets : bool)
    (c : counters) : list string :=
  ["✅ Input XML: " +:+ input_xml;
   "✅ Output CSV: " +:+ output_csv;
   "總 GeoPosition: " +:+ pretty (total c);
   "輸出筆數: " +:+ pretty (written c) +:+ " (only_toilets="
     +:+ bool_str only_toilets +:+ ")";
   "缺少座標筆數: " +:+ pretty (missing_coord c);
   "座標可疑筆數(超出台灣範圍): " +:+ pretty (suspicious_coord c);
   separator] ++
  (if (0 <? missing_coord c)%nat
   then ["⚠️ 有些門市缺少座標欄位 (X/Y)。可用解法見下方說明。"]
   else []).

(** The value of a call that ends without [return]. *)
Inductive NoneType : Type := PyNone.

(** What a call of [export_csv] leaves behind: the table written (header,
    then data rows), the standard output, the value returned. *)
Record outcome : Type := Outcome {
  csv_header : list string;
  csv_rows : list (list value);
  stdout : list string;
  returned : NoneType
}.

(** [doc] is the document that the file [input_xml] holds. *)
Definition export_csv (input_xml : string) (doc : element)
    (output_csv : string) (only_toilets include_debug : bool) : outcome :=
  let r := export_loop only_toilets include_debug (iter_711_stores doc) in
  Outcome (fieldnames include_debug) (rows r)
          (printed r ++ report input_xml output_csv only_toilets (count r))
          PyNone.

(** ** Vocabulary of the statements *)

(** The two dictionaries of [build_location_row], by their entries. *)
Definition prisma_row_of (name description : string) (lat lng : value)
  : gmap string value :=
  <["name" := VStr name]>
  (<["description" := VStr description]>
  (<["type" := VStr "TOILET"]>
  (<["lat" := lat]>
  (<["lng" := lng]>
  (<["floor" := VStr ""]>
  (<["hasTissue" := VBool false]>
  (<["hasDryer" := VBool false]>
  (<["hasSeat" := VBool false]>
  (<["hasDiaperTable" := VBool false]>
  (<["hasWaterDispenser" := VBool false]>
  (<["hasAutoDoor" := VBool false]>
  (<["hasHandrail" := VBool false]> ∅)))))))))))).

Definition debug_row_of (poiid name address tel op_time services x y : string)
    (has_toilet : bool) : gmap string audit_value :=
  <["source" := AStr "7-ELEVEN iMapSDKOutput"]>
  (<["poiid" := AStr poiid]>
  (<["poiname" := AStr name]>
  (<["address" := AStr address]>
  (<["telno" := AStr tel]>
  (<["op_time" := AStr op_time]>
  (<["services" := AStr services]>
  (<["x_raw" := AStr x]>
  (<["y_raw" := AStr y]>
  (<["has_toilet_service_tag" := ABool has_toilet]> ∅))))))))).

(** The keys that [build_location_row] reads. *)
Definition recognised_keys : list string :=
  ["poiid"; "poiname"; "address"; "telno"; "op_time"; "storeimagetitle";
   "x"; "y"].

(** The name and description columns of a record. *)
Definition display_name (st : store) : string :=
  let name := Text.strip (get st "poiname" "") in
  if Text.is_empty name then brand else brand +:+ " " +:+ name.

Definition description_of (st : store) : string :=
  match desc_parts (Text.strip (get st "address" ""))
                   (Text.strip (get st "telno" ""))
                   (Text.strip (get st "op_time" "")) with
  | [] => ""
  | (_ :: _) as parts =>
      let d := Text.join "；" parts +:+ "；" in
      if Text.is_empty d then "" else d
  end.

Definition coordinates (st : store) : option float * option float :=
  _normalize_lng_lat (get st "x" "") (get st "y" "").

Definition canonical (st : store) : gmap string value :=
  fst (build_location_row st).
Definition audit (st : store) : gmap string audit_value :=
  snd (build_location_row st).

(** The raw service text of a record contains the marker. *)
Definition tagged (st : store) : bool :=
  Text.py_in marker (get st "storeimagetitle" "").

(** The record passes the filter of the loop. *)
Definition kept (only_toilets : bool) (st : store) : bool :=
  negb only_toilets || tagged st.

(** [v] lies outside the interval from [lo] to [hi]; a NaN lies outside
    every interval. *)
Definition outside (lo hi v : float) : bool :=
  negb (F64.leb lo v && F64.leb v hi).

Definition missing_row (row : gmap string value) : bool :=
  is_empty_text (row !! "lat") || is_empty_text (row !! "lng").

Definition suspicious_row (row : gmap string value) : bool :=
  negb (is_empty_text (row !! "lat")) &&
  negb (is_empty_text (row !! "lng")) &&
  match py_float (row !! "lat"), py_float (row !! "lng") with
  | Some lat_f, Some lng_f =>
      outside lat_min lat_max lat_f || outside lng_min lng_max lng_f
  | _, _ => false
  end.

(** The dictionary handed to the writer for a record, and the cells
    written for it. *)
Definition written_row (include_debug : bool) (st : store)
  : gmap string value :=
  if include_debug then (cell <$> audit st) ∪ canonical st
  else canonical st.

Definition row_of (include_debug : bool) (st : store) : list value :=
  writerow (fieldnames include_debug) (written_row include_debug st).

(** Some element of the document is a record element. *)
Fixpoint has_target (e : element) : bool :=
  match e with
  | Element tag _ children =>
      is_geoposition tag || existsb has_target children
  end.

(** A plain decimal numeral: digits, with at most a sign and a point. *)
Definition plain_numeral (s : string) : bool :=
  forallb (fun c => PyFloat.is_digit c
                    || bool_decide (c ∈ ["."; "-"; "+"]%char))
          (Text.chars s).

(** Example documents. *)
Definition leaf (tag txt : string) : element := Element tag (Some txt) [].

Definition doc_empty : element :=
  Element "iMapSDKOutput" None [leaf "MessageID" "000"].

Definition doc_two : element :=
  Element "iMapSDKOutput" None
    [leaf "MessageID" "000";
     Element "GeoPosition" None
       [leaf "POIID" "123"; leaf "POIName" "台大"; leaf "X" "121532554";
        leaf "Y" "25017604"; leaf "StoreImageTitle" "01ATM,02廁所";
        leaf "Address" "台北市"];
     Element "GeoPosition" None
       [leaf "POIID" "124"; leaf "POIName" "師大"; leaf "X" "121532554";
        leaf "Y" ""; leaf "StoreImageTitle" "01ATM"]].

Definition doc_nonfinite : element :=
  Element "iMapSDKOutput" None
    [Element "GeoPosition" None [leaf "X" "inf"; leaf "Y" "nan"]].

(** ** Vocabulary of the further statements *)

(** The key under which a child enters the mapping of its parent. *)
Definition key_of (child : element) : string :=
  Text.lower (Text.strip (tag_of child)).

(** The number of record elements of a document, nested ones included. *)
Fixpoint count_targets (e : element) : nat :=
  match e with
  | Element tag _ children =>
      (list_sum (map count_targets children)
       + (if is_geoposition tag then 1 else 0))%nat
  end.

(** The record elements of a document, in the order of their end tags. *)
Fixpoint targets (e : element) : list element :=
  match e with
  | Element tag _ children =>
      concat (map targets children)
      ++ (if is_geoposition tag then [e] else [])
  end.

(** No record element lies inside another one. *)
Fixpoint no_nested_targets (e : element) : bool :=
  match e with
  | Element tag _ children =>
      forallb no_nested_targets children
      && (if is_geoposition tag then negb (existsb has_target children)
          else true)
  end.

(** A labelled part of the description, closed by the separator; nothing
    for an empty value. *)
Definition labelled (label v : string) : string :=
  if Text.is_empty v then "" else label +:+ v +:+ "；".

(** A written row has an empty [lat] or [lng] cell (columns 3 and 4). *)
Definition lacks_coordinate_cell (row : list value) : bool :=
  is_empty_text (row !! 3%nat) || is_empty_text (row !! 4%nat).

(** A written row has two coordinate cells of which one lies outside the
    bounding box. *)
Definition has_suspicious_cells (row : list value) : bool :=
  negb (lacks_coordinate_cell row) &&
  match py_float (row !! 3%nat), py_float (row !! 4%nat) with
  | Some lat_f, Some lng_f =>
      outside lat_min lat_max lat_f || outside lng_min lng_max lng_f
  | _, _ => false
  end.

Definition warning : string :=
  "⚠️ 有些門市缺少座標欄位 (X/Y)。可用解法見下方說明。".

(** ** The entry point *)








(** * Properties *)

(** ** Texts *)

Section TextFacts.
Import Text.

Lemma chars_text l : chars (text l) = l.
Proof. apply String.list_ascii_of_string_of_list_ascii. Qed.

Lemma text_chars s : text (chars s) = s.
Proof. apply String.string_of_list_ascii_of_string. Qed.

Lemma chars_app s t : chars (s +:+ t) = chars s ++ chars t.
Proof. induction s as [|a s IH]; simpl; [done|]. by rewrite <- IH. Qed.

Lemma drop_prefix_spec p l r : drop_prefix p l = Some r <-> l = p ++ r.
Proof.
  revert l. induction p as [|a p IH]; intros [|b l]; simpl.
  - split; congruence.
  - split; congruence.
  - split; [done | discriminate].
  - unfold ascii_eqb. destruct (Ascii.eqb_spec a b) as [->|Hne].
    + rewrite IH. split; congruence.
    + split; [done | congruence].
Qed.

(** [contains] decides the substring relation. *)
Lemma contains_spec m l :
  contains m l = true <-> exists a b, l = a ++ m ++ b.
Proof.
  induction l as [|c l IH]; simpl.
  - destruct (drop_prefix m []) as [r|] eqn:E.
    + apply drop_prefix_spec in E. split; [|done].
      intros _. exists [], r. done.
    + split; [done|]. intros (a & b & Hab).
      destruct a; [|done]. simpl in Hab.
      assert (drop_prefix m [] = Some b) by (by apply drop_prefix_spec).
      congruence.
  - destruct (drop_prefix m (c :: l)) as [r|] eqn:E.
    + apply drop_prefix_spec in E. split; [|done].
      intros _. exists [], r. done.
    + rewrite IH. split.
      * intros (a & b & ->). by exists (c :: a), b.
      * intros ([|c' a] & b & Hab).
        -- assert (drop_prefix m (c :: l) = Some b)
             by (by apply drop_prefix_spec).
           congruence.
        -- injection Hab as -> ->. by exists a, b.
Qed.

Lemma contains_reverse m l :
  contains (reverse m) (reverse l) = contains m l.
Proof.
  apply eq_true_iff_eq. rewrite !contains_spec. split.
  - intros (a & b & H). exists (reverse b), (reverse a).
    apply (f_equal reverse) in H.
    by rewrite !reverse_app, !reverse_involutive, <- app_assoc in H.
  - intros (a & b & ->). exists (reverse b), (reverse a).
    by rewrite !reverse_app, <- app_assoc.
Qed.

Lemma drop_one_spec pats l r :
  drop_one pats l = Some r -> exists p, p ∈ pats /\ l = p ++ r.
Proof.
  induction pats as [|p pats IH]; simpl; [done|].
  destruct (drop_prefix p l) as [r'|] eqn:E.
  - intros [= ->]. exists p. split; [left|]. by apply drop_prefix_spec.
  - intros (q & Hq & ->)%IH. exists q. split; [by right | done].
Qed.

(** A needle that no pattern can touch survives the removal of leading
    patterns. *)
Lemma contains_lstrip_with m pats n l :
  Forall (fun p => forall t, contains m (p ++ t) = contains m t) pats ->
  contains m (lstrip_with pats n l) = contains m l.
Proof.
  intros Hp. revert l. induction n as [|n IH]; intros l; simpl; [done|].
  destruct (drop_one pats l) as [r|] eqn:E; [|done].
  apply drop_one_spec in E as (p & Hin & ->).
  rewrite IH. symmetry. by apply (proj1 (Forall_forall _ _) Hp).
Qed.

Lemma contains_strip_with m pats l :
  Forall (fun p => forall t, contains m (p ++ t) = contains m t) pats ->
  Forall (fun p => forall t,
            contains (reverse m) (p ++ t) = contains (reverse m) t)
         (reverse <$> pats) ->
  contains m (strip_with pats l) = contains m l.
Proof.
  intros Hl Hr. unfold strip_with, rstrip_with.
  rewrite <- contains_reverse, reverse_involutive.
  rewrite (contains_lstrip_with _ _ _ _ Hr), contains_reverse.
  by apply contains_lstrip_with.
Qed.

(** Removing leading patterns stops only where no pattern matches. *)
Lemma lstrip_with_done pats n l :
  Forall (fun p => p <> []) pats ->
  (length l <= n)%nat ->
  drop_one pats (lstrip_with pats n l) = None.
Proof.
  intros Hne. revert l. induction n as [|n IH]; intros l Hn; simpl.
  - destruct l; [|simpl in Hn; lia].
    destruct (drop_one pats []) as [r|] eqn:E; [|done].
    apply drop_one_spec in E as (p & Hin & Hp).
    destruct p; [|done].
    by apply (proj1 (Forall_forall _ _) Hne) in Hin.
  - destruct (drop_one pats l) as [r|] eqn:E; [|done].
    apply IH. apply drop_one_spec in E as (p & Hin & ->).
    apply (proj1 (Forall_forall _ _) Hne) in Hin.
    destruct p; [done|]. rewrite length_app in Hn. simpl in Hn. lia.
Qed.

Lemma drop_one_complete pats p l r :
  p ∈ pats -> l = p ++ r -> is_Some (drop_one pats l).
Proof.
  intros Hin ->. induction pats as [|q pats IH]; [by apply elem_of_nil in Hin|].
  cbn [drop_one]. destruct (drop_prefix q (p ++ r)) eqn:E; [eauto|].
  apply elem_of_cons in Hin as [->|Hin]; [|by apply IH].
  assert (drop_prefix q (q ++ r) = Some r) by (by apply drop_prefix_spec).
  congruence.
Qed.

(** What [lstrip_with] returns is a final part of its argument. *)
Lemma lstrip_with_suffix pats n l :
  exists w, l = w ++ lstrip_with pats n l.
Proof.
  revert l. induction n as [|n IH]; intros l; cbn [lstrip_with].
  - by exists [].
  - destruct (drop_one pats l) as [r|] eqn:E; [|by exists []].
    apply drop_one_spec in E as (p & _ & ->).
    destruct (IH r) as [w Hw]. exists (p ++ w).
    by rewrite <- app_assoc, <- Hw.
Qed.

(** The bound on the number of removals is never reached: what
    [strip_with] returns starts with no pattern and ends with none. *)
Lemma strip_with_trimmed pats l :
  Forall (fun p => p <> []) pats ->
  drop_one pats (strip_with pats l) = None /\
  drop_one (reverse <$> pats) (reverse (strip_with pats l)) = None.
Proof.
  intros Hne. unfold strip_with, rstrip_with.
  set (l1 := lstrip_with pats (length l) l).
  assert (drop_one pats l1 = None) as Hl1
    by (by apply lstrip_with_done).
  set (rp := reverse <$> pats).
  assert (Forall (fun p => p <> []) rp) as Hrp.
  { subst rp. apply Forall_fmap. eapply Forall_impl; [exact Hne|].
    intros p Hp Hr. apply Hp. apply (f_equal reverse) in Hr.
    by rewrite reverse_involutive in Hr. }
  split.
  - destruct (lstrip_with_suffix rp (length l1) (reverse l1)) as [w Hw].
    destruct (drop_one pats
                (reverse (lstrip_with rp (length l1) (reverse l1))))
      as [r|] eqn:E; [|done].
    apply drop_one_spec in E as (p & Hin & Hp).
    apply (f_equal reverse) in Hw.
    rewrite reverse_involutive, reverse_app, Hp, <- app_assoc in Hw.
    destruct (drop_one_complete pats p l1 _ Hin Hw) as [x Hx]. congruence.
  - rewrite reverse_involutive. apply lstrip_with_done; [done|].
    by rewrite length_reverse.
Qed.

End TextFacts.

(** ** The service marker and white space *)

Lemma marker_clear_of_spaces :
  Forall (fun p => forall t,
            Text.contains (Text.chars marker) (p ++ t)
            = Text.contains (Text.chars marker) t)
         Text.spaces.
Proof.
  unfold Text.spaces.
  repeat (apply Forall_cons; split; [intros t; reflexivity|]).
  apply Forall_nil_2.
Qed.

Lemma marker_clear_of_spaces_reversed :
  Forall (fun p => forall t,
            Text.contains (reverse (Text.chars marker)) (p ++ t)
            = Text.contains (reverse (Text.chars marker)) t)
         (reverse <$> Text.spaces).
Proof.
  unfold Text.spaces.
  repeat (apply Forall_cons; split; [intros t; reflexivity|]).
  apply Forall_nil_2.
Qed.

(** Trimming a text neither creates nor destroys an occurrence of the
    marker. *)
Lemma marker_in_strip s :
  Text.py_in marker (Text.strip s) = Text.py_in marker s.
Proof.
  unfold Text.py_in, Text.strip. rewrite chars_text.
  apply contains_strip_with;
    [apply marker_clear_of_spaces | apply marker_clear_of_spaces_reversed].
Qed.

(** A trimmed text neither starts nor ends with white space. *)
Lemma strip_trimmed s :
  Text.drop_one Text.spaces (Text.chars (Text.strip s)) = None /\
  Text.drop_one (reverse <$> Text.spaces)
                (reverse (Text.chars (Text.strip s))) = None.
Proof.
  unfold Text.strip. rewrite chars_text. apply strip_with_trimmed.
  unfold Text.spaces. repeat (apply Forall_cons; split; [done|]).
  apply Forall_nil_2.
Qed.

Lemma strip_empty : Text.strip "" = "".
Proof. reflexivity. Qed.

Lemma py_in_spec m s :
  Text.py_in m s = true <-> exists a b, s = a +:+ m +:+ b.
Proof.
  unfold Text.py_in. rewrite contains_spec. split.
  - intros (a & b & H). exists (Text.text a), (Text.text b).
    rewrite <- (text_chars s), H, <- (text_chars (_ +:+ _)).
    by rewrite !chars_app, !chars_text.
  - intros (a & b & ->). exists (Text.chars a), (Text.chars b).
    by rewrite !chars_app.
Qed.

(** ** Record mapper *)

Lemma prisma_cells name description lat lng :
  writerow prisma_fields (prisma_row_of name description lat lng)
  = [VStr name; VStr description; VStr "TOILET"; lat; lng; VStr "";
     VBool false; VBool false; VBool false; VBool false; VBool false;
     VBool false; VBool false].
Proof. vm_compute. reflexivity. Qed.

Lemma merged_cells name description lat lng
    poiid name' address tel op_time services x y has_toilet :
  writerow (prisma_fields ++ debug_fields)
    ((cell <$> debug_row_of poiid name' address tel op_time services x y
                            has_toilet)
     ∪ prisma_row_of name description lat lng)
  = writerow prisma_fields (prisma_row_of name description lat lng)
    ++ [VStr "7-ELEVEN iMapSDKOutput"; VStr poiid; VStr name'; VStr address;
        VStr tel; VStr op_time; VStr services; VStr x; VStr y;
        VBool has_toilet].
Proof. vm_compute. reflexivity. Qed.

Lemma build_location_row_eq st :
  build_location_row st =
  (prisma_row_of (display_name st) (description_of st)
                 (coordinate (snd (coordinates st)))
                 (coordinate (fst (coordinates st))),
   debug_row_of (get st "poiid" "")
                (Text.strip (get st "poiname" ""))
                (Text.strip (get st "address" ""))
                (Text.strip (get st "telno" ""))
                (Text.strip (get st "op_time" ""))
                (Text.strip (get st "storeimagetitle" ""))
                (get st "x" "") (get st "y" "")
                (Text.py_in marker (Text.strip (get st "storeimagetitle" "")))).
Proof.
  unfold build_location_row, coordinates, display_name, description_of.
  destruct (_normalize_lng_lat _ _) as [lng lat]. simpl.
  destruct (desc_parts _ _ _); reflexivity.
Qed.

Lemma canonical_lat st :
  canonical st !! "lat" = Some (coordinate (snd (coordinates st))).
Proof. unfold canonical. rewrite build_location_row_eq. reflexivity. Qed.

Lemma canonical_lng st :
  canonical st !! "lng" = Some (coordinate (fst (coordinates st))).
Proof. unfold canonical. rewrite build_location_row_eq. reflexivity. Qed.

(** ** Coordinate normaliser *)

Lemma normalize_present x_raw y_raw x y :
  _parse_float x_raw = Some x -> _parse_float y_raw = Some y ->
  _normalize_lng_lat x_raw y_raw = (Some (rescale x), Some (rescale y)).
Proof. intros Hx Hy. unfold _normalize_lng_lat. by rewrite Hx, Hy. Qed.

Lemma normalize_absent x_raw y_raw :
  _parse_float x_raw = None \/ _parse_float y_raw = None ->
  _normalize_lng_lat x_raw y_raw = (None, None).
Proof.
  intros [H|H]; unfold _normalize_lng_lat; rewrite H; [done|].
  by destruct (_parse_float x_raw).
Qed.

Lemma normalize_inv x_raw y_raw lng lat :
  _normalize_lng_lat x_raw y_raw = (Some lng, Some lat) ->
  exists x y, _parse_float x_raw = Some x /\ _parse_float y_raw = Some y /\
              lng = rescale x /\ lat = rescale y.
Proof.
  unfold _normalize_lng_lat.
  destruct (_parse_float x_raw) as [x|], (_parse_float y_raw) as [y|];
    intros H; try discriminate H.
  injection H as <- <-. by exists x, y.
Qed.

Lemma rescale_small v : F64.gtb (F64.abs v) thousand = false -> rescale v = v.
Proof. intros H. unfold rescale. by rewrite H. Qed.

Lemma constants_denote :
  PyFloat.of_str "1000" = Some thousand /\
  PyFloat.of_str "1000000" = Some million /\
  PyFloat.of_str "20" = Some lat_min /\ PyFloat.of_str "27" = Some lat_max /\
  PyFloat.of_str "118" = Some lng_min /\ PyFloat.of_str "123.5" = Some lng_max.
Proof. repeat split; vm_compute; reflexivity. Qed.

(** Comparison of binary64 numbers is antisymmetric: [a <= b] excludes
    [a > b]. *)
Lemma leb_excludes_gtb a b : F64.leb a b = true -> F64.gtb a b = false.
Proof.
  unfold F64.leb, F64.gtb, F64.ltb, SFleb, SFltb.
  destruct a as [sa|sa| |sa ma ea], b as [sb|sb| |sb mb eb]; simpl;
    try destruct sa; try destruct sb; simpl; try done.
  all: rewrite (Z.compare_antisym ea eb);
    destruct (ea ?= eb)%Z; simpl; try done;
    pose proof (Pos.compare_cont_antisym mb ma Eq) as A; simpl in A;
    rewrite <- A; by destruct (Pos.compare_cont Eq mb ma).
Qed.

(** C1. When either raw coordinate fails to parse, the normaliser returns
    (absent, absent), never one value alone, and the canonical row of a
    record with these raw coordinates has both [lat] and [lng] empty. *)
Theorem absent_axis_gives_no_coordinates (x_raw y_raw : string) :
  _parse_float x_raw = None \/ _parse_float y_raw = None ->
  _normalize_lng_lat x_raw y_raw = (None, None) /\
  forall st : store,
    get st "x" "" = x_raw -> get st "y" "" = y_raw ->
    fst (build_location_row st) !! "lat" = Some (VStr "") /\
    fst (build_location_row st) !! "lng" = Some (VStr "").
Proof.
  intros H. pose proof (normalize_absent _ _ H) as Hn. split; [exact Hn|].
  intros st Hx Hy. fold (canonical st).
  rewrite canonical_lat, canonical_lng. unfold coordinates.
  rewrite Hx, Hy, Hn. done.
Qed.

Lemma absent_axis_gives_no_coordinates_witness :
  _normalize_lng_lat "" "25017604" = (None, None) /\
  fst (build_location_row {["y" := "25017604"]}) !! "lat" = Some (VStr "") /\
  fst (build_location_row {["y" := "25017604"]}) !! "lng" = Some (VStr "").
Proof.
  destruct (absent_axis_gives_no_coordinates "" "25017604") as [H1 H2].
  - left. vm_compute. reflexivity.
  - split; [exact H1|]. apply H2; vm_compute; reflexivity.
Defined.

(** C2. Each parsed axis value [v] becomes [v / 1000000] exactly when
    [abs v > 1000], and is passed through when [abs v <= 1000], each axis
    on its own; ("121532554", "25017604") gives (121.532554, 25.017604). *)
Theorem rescale_exactly_above_thousand (x_raw y_raw : string) (x y : float) :
  _parse_float x_raw = Some x -> _parse_float y_raw = Some y ->
  _normalize_lng_lat x_raw y_raw =
    (Some (if F64.gtb (F64.abs x) thousand then F64.div x million else x),
     Some (if F64.gtb (F64.abs y) thousand then F64.div y million else y))
  /\ (F64.leb (F64.abs x) thousand = true ->
      fst (_normalize_lng_lat x_raw y_raw) = Some x)
  /\ (F64.leb (F64.abs y) thousand = true ->
      snd (_normalize_lng_lat x_raw y_raw) = Some y)
  /\ _normalize_lng_lat "121532554" "25017604" =
       (PyFloat.of_str "121.532554", PyFloat.of_str "25.017604")
  /\ is_Some (PyFloat.of_str "121.532554")
  /\ is_Some (PyFloat.of_str "25.017604").
Proof.
  intros Hx Hy. rewrite (normalize_present _ _ _ _ Hx Hy).
  split; [reflexivity|]. simpl. unfold rescale.
  split; [by intros ->%leb_excludes_gtb|].
  split; [by intros ->%leb_excludes_gtb|].
  split; [vm_compute; reflexivity|].
  split; vm_compute; eauto.
Qed.

Lemma rescale_exactly_above_thousand_witness :
  _normalize_lng_lat "121532554" "25.017604" =
    (PyFloat.of_str "121.532554", PyFloat.of_str "25.017604").
Proof.
  destruct (rescale_exactly_above_thousand "121532554" "25.017604"
              (PyFloat.lit "121532554") (PyFloat.lit "25.017604"))
    as [H _]; [vm_compute; reflexivity ..|].
  rewrite H. vm_compute. reflexivity.
Defined.

(** C3, as stated, fails: normalising again the output of a first pass is
    not always the identity. The raw pair ("2000000000", "25017604") gives
    (2000.0, 25.017604); the texts "2000.0" and "25.017604" denote these two
    values, and normalising them gives 0.002 for the first. *)
Lemma renormalising_can_change_the_output :
  exists lng lat lng_again : float,
    _normalize_lng_lat "2000000000" "25017604" = (Some lng, Some lat) /\
    _parse_float "2000.0" = Some lng /\
    _parse_float "25.017604" = Some lat /\
    _parse_float "0.002" = Some lng_again /\
    _normalize_lng_lat "2000.0" "25.017604" = (Some lng_again, Some lat) /\
    lng_again <> lng.
Proof.
  exists (PyFloat.lit "2000.0"), (PyFloat.lit "25.017604"),
         (PyFloat.lit "0.002").
  repeat split; try (vm_compute; reflexivity).
  vm_compute. discriminate.
Qed.

(** C3, amended. When both values that the normaliser returns have a
    magnitude that is not above 1000, normalising any texts that denote
    them returns them unchanged; (121.5, 25.0) is returned unchanged. *)
Theorem renormalising_small_output_is_identity
    (x_raw y_raw x_again y_again : string) (lng lat : float) :
  _normalize_lng_lat x_raw y_raw = (Some lng, Some lat) ->
  F64.gtb (F64.abs lng) thousand = false ->
  F64.gtb (F64.abs lat) thousand = false ->
  _parse_float x_again = Some lng ->
  _parse_float y_again = Some lat ->
  _normalize_lng_lat x_again y_again = (Some lng, Some lat)
  /\ _normalize_lng_lat "121.5" "25.0"
     = (_parse_float "121.5", _parse_float "25.0")
  /\ is_Some (_parse_float "121.5") /\ is_Some (_parse_float "25.0").
Proof.
  intros _ Hlng Hlat Hx Hy. split.
  - rewrite (normalize_present _ _ _ _ Hx Hy).
    by rewrite (rescale_small _ Hlng), (rescale_small _ Hlat).
  - split; [vm_compute; reflexivity|]. split; vm_compute; eauto.
Qed.

Lemma renormalising_small_output_is_identity_witness :
  _normalize_lng_lat "121.532554" "25.017604"
  = (Some (PyFloat.lit "121.532554"), Some (PyFloat.lit "25.017604")).
Proof.
  apply (renormalising_small_output_is_identity
           "121532554" "25017604" "121.532554" "25.017604"
           (PyFloat.lit "121.532554") (PyFloat.lit "25.017604"));
    vm_compute; reflexivity.
Defined.

(** ** Record mapper on a mapping without the keys it reads *)

Lemma get_absent (st : store) k : st !! k = None -> get st k "" = "".
Proof. intros H. unfold get. by rewrite H. Qed.

(** C8. On the empty mapping, and on any mapping that has none of the keys
    read, the record mapper yields the name "7-ELEVEN" (no trailing space),
    an empty description, the type "TOILET", empty [lat], [lng] and
    [floor], all facility flags false, and an audit row whose service tag
    is false. *)
Theorem mapping_without_keys_gives_defaults (st : store) :
  Forall (fun k => st !! k = None) recognised_keys ->
  let '(prisma_row, debug_row) := build_location_row st in
  prisma_row !! "name" = Some (VStr "7-ELEVEN") /\
  prisma_row !! "description" = Some (VStr "") /\
  prisma_row !! "type" = Some (VStr "TOILET") /\
  prisma_row !! "lat" = Some (VStr "") /\
  prisma_row !! "lng" = Some (VStr "") /\
  prisma_row !! "floor" = Some (VStr "") /\
  Forall (fun k => prisma_row !! k = Some (VBool false))
         ["hasTissue"; "hasDryer"; "hasSeat"; "hasDiaperTable";
          "hasWaterDispenser"; "hasAutoDoor"; "hasHandrail"] /\
  debug_row !! "has_toilet_service_tag" = Some (ABool false) /\
  build_location_row st = build_location_row ∅.
Proof.
  intros H. unfold recognised_keys in H.
  repeat (apply Forall_cons in H as [?%get_absent H]).
  assert (build_location_row st = build_location_row ∅) as ->.
  { rewrite !build_location_row_eq.
    unfold display_name, description_of, coordinates.
    repeat match goal with E : get st _ "" = "" |- _ => rewrite E; clear E end.
    reflexivity. }
  rewrite build_location_row_eq. cbv beta iota.
  repeat split;
    repeat (apply Forall_cons; split); try apply Forall_nil_2;
    vm_compute; reflexivity.
Qed.

Lemma mapping_without_keys_gives_defaults_witness :
  fst (build_location_row {["fax" := "02-1234"]}) !! "name"
  = Some (VStr "7-ELEVEN").
Proof.
  pose proof (mapping_without_keys_gives_defaults {["fax" := "02-1234"]}) as H.
  destruct (build_location_row {["fax" := "02-1234"]}) as [p d].
  apply H. unfold recognised_keys.
  repeat (apply Forall_cons; split; [vm_compute; reflexivity|]).
  apply Forall_nil_2.
Defined.

(** ** Export loop *)

Lemma audit_services poiid name address tel op_time services x y t :
  debug_row_of poiid name address tel op_time services x y t !! "services"
  = Some (AStr services).
Proof. vm_compute. reflexivity. Qed.

Lemma audit_tag poiid name address tel op_time services x y t :
  debug_row_of poiid name address tel op_time services x y t
    !! "has_toilet_service_tag" = Some (ABool t).
Proof. vm_compute. reflexivity. Qed.

Lemma audit_str_or_empty s : audit_str (audit_or (AStr s) (AStr "")) = s.
Proof. by destruct s. Qed.

(** The filter of the loop recomputes the service tag of the audit row. *)
Lemma has_toilet_of_audit st : has_toilet_of (audit st) = tagged st.
Proof.
  unfold audit, has_toilet_of, tagged. rewrite build_location_row_eq.
  cbn [snd]. rewrite audit_services. cbn [default from_option id].
  rewrite audit_str_or_empty. apply marker_in_strip.
Qed.

Lemma in_taiwan_outside lat_f lng_f :
  negb (in_taiwan lat_f lng_f)
  = outside lat_min lat_max lat_f || outside lng_min lng_max lng_f.
Proof.
  unfold in_taiwan, outside.
  by destruct (F64.leb lat_min lat_f), (F64.leb lat_f lat_max),
              (F64.leb lng_min lng_f), (F64.leb lng_f lng_max).
Qed.

Lemma bookkeeping_counts (row : gmap string value) c :
  bookkeeping (row !! "lat") (row !! "lng") c
  = Counters (total c) (written c)
             (missing_coord c + Nat.b2n (missing_row row))
             (suspicious_coord c + Nat.b2n (suspicious_row row)).
Proof.
  unfold bookkeeping, missing_row, suspicious_row.
  destruct c as [t w m s]; cbn [total written missing_coord suspicious_coord].
  destruct (is_empty_text (row !! "lat")), (is_empty_text (row !! "lng"));
    cbn [orb andb negb Nat.b2n]; try (f_equal; lia).
  destruct (py_float (row !! "lat")) as [lat_f|],
           (py_float (row !! "lng")) as [lng_f|];
    cbn [Nat.b2n]; try (f_equal; lia).
  rewrite <- in_taiwan_outside.
  destruct (negb (in_taiwan lat_f lng_f)); cbn [Nat.b2n]; f_equal; lia.
Qed.

Lemma export_step_eq only_toilets include_debug r st :
  export_step only_toilets include_debug r st =
  let c := count r in
  if kept only_toilets st then
    Run (Counters (S (total c)) (S (written c))
                  (missing_coord c + Nat.b2n (missing_row (canonical st)))
                  (suspicious_coord c
                   + Nat.b2n (suspicious_row (canonical st))))
        (rows r ++ [row_of include_debug st])
        (printed r ++ [separator])
  else
    Run (Counters (S (total c)) (written c) (missing_coord c)
                  (suspicious_coord c))
        (rows r) (printed r).
Proof.
  unfold export_step, kept, row_of, written_row.
  rewrite (surjective_pairing (build_location_row st)).
  fold (canonical st) (audit st). rewrite has_toilet_of_audit.
  destruct only_toilets, (tagged st); cbn [andb negb orb]; try reflexivity;
    rewrite bookkeeping_counts; reflexivity.
Qed.

Lemma export_loop_from only_toilets include_debug stores r :
  fold_left (export_step only_toilets include_debug) stores r =
  let c := count r in
  let K := List.filter (kept only_toilets) stores in
  Run (Counters
         (total c + length stores)
         (written c + length K)
         (missing_coord c + length
            (List.filter (fun st => kept only_toilets st
                                    && missing_row (canonical st)) stores))
         (suspicious_coord c + length
            (List.filter (fun st => kept only_toilets st
                                    && suspicious_row (canonical st)) stores)))
      (rows r ++ (row_of include_debug <$> K))
      (printed r ++ replicate (length K) separator).
Proof.
  revert r. induction stores as [|st stores IH]; intros [[t w m s] rs ps].
  - cbn. rewrite !Nat.add_0_r, !app_nil_r. reflexivity.
  - cbn [fold_left]. rewrite export_step_eq, IH.
    cbn [count rows printed total written missing_coord suspicious_coord
         List.filter].
    destruct (kept only_toilets st);
      cbn [count rows printed total written missing_coord suspicious_coord
           andb].
    + destruct (missing_row (canonical st)), (suspicious_row (canonical st));
        cbn [Nat.b2n length fmap list_fmap replicate];
        rewrite <- ?app_assoc; cbn [app]; do 2 f_equal; lia.
    + cbn [length]. do 2 f_equal; lia.
Qed.

Lemma export_loop_eq only_toilets include_debug stores :
  export_loop only_toilets include_debug stores =
  let K := List.filter (kept only_toilets) stores in
  Run (Counters
         (length stores) (length K)
         (length (List.filter (fun st => kept only_toilets st
                                         && missing_row (canonical st))
                              stores))
         (length (List.filter (fun st => kept only_toilets st
                                         && suspicious_row (canonical st))
                              stores)))
      (row_of include_debug <$> K)
      (replicate (length K) separator).
Proof. unfold export_loop. rewrite export_loop_from. reflexivity. Qed.

(** ** Streaming record extractor *)

Lemma element_induction (P : element -> Prop) :
  (forall tag text children,
      Forall P children -> P (Element tag text children)) ->
  forall e, P e.
Proof.
  intros step. fix rec 1. intros [tag text children].
  apply step. induction children as [|c children IH].
  - apply Forall_nil_2.
  - apply Forall_cons. split; [apply rec | exact IH].
Qed.

(** A subtree without record element yields nothing and is left as it
    is. *)
Lemma visit_without_target e : has_target e = false -> visit e = ([], e).
Proof.
  induction e as [tag text children IH] using element_induction.
  cbn [has_target visit]. intros [Htag Hkids]%orb_false_iff. rewrite Htag.
  assert (map visit children = (fun c => ([], c)) <$> children) as ->.
  { induction children as [|c children IHc]; [done|].
    cbn [existsb] in Hkids. apply orb_false_iff in Hkids as [Hc Hcs].
    apply Forall_cons in IH as [IHhd IHtl].
    cbn [map fmap list_fmap]. rewrite (IHhd Hc). f_equal.
    by apply IHc. }
  f_equal.
  - induction children as [|c children IHc]; [done|].
    cbn [fmap list_fmap concat app]. apply IHc.
    + by apply Forall_cons in IH as [_ ?].
    + cbn [existsb] in Hkids. by apply orb_false_iff in Hkids as [_ ?].
  - f_equal. clear. induction children as [|c children IHc]; [done|].
    cbn [fmap list_fmap snd]. f_equal. exact IHc.
Qed.

Lemma no_target_no_records doc :
  has_target doc = false -> iter_711_stores doc = [].
Proof.
  intros H. unfold iter_711_stores. by rewrite (visit_without_target _ H).
Qed.

(** ** Export pipeline *)

(** C4, as stated, fails: the call returns [None] whatever the input, so
    the value returned cannot carry the counters. Two documents with
    different counters give the same returned value. *)
Lemma returned_value_ignores_the_counters :
  returned (export_csv "in.xml" doc_empty "out.csv" false true) = PyNone /\
  returned (export_csv "in.xml" doc_two "out.csv" false true) = PyNone /\
  count (export_loop false true (iter_711_stores doc_empty))
  = Counters 0 0 0 0 /\
  count (export_loop false true (iter_711_stores doc_two))
  = Counters 2 2 1 0.
Proof. repeat split; vm_compute; reflexivity. Qed.

(** C4, amended. After the stream is exhausted the export prints the four
    counters (total, written, missing-coordinate, suspicious-coordinate) on
    the standard output, after one separator line per written row, and
    returns [None]. *)
Theorem export_prints_the_counters
    (input_xml output_csv : string) (doc : element)
    (only_toilets include_debug : bool) :
  let stores := iter_711_stores doc in
  let o := export_csv input_xml doc output_csv only_toilets include_debug in
  let c := count (export_loop only_toilets include_debug stores) in
  returned o = PyNone /\
  stdout o = replicate (written c) separator
             ++ report input_xml output_csv only_toilets c /\
  "總 GeoPosition: " +:+ pretty (total c) ∈ stdout o /\
  "輸出筆數: " +:+ pretty (written c) +:+ " (only_toilets="
     +:+ bool_str only_toilets +:+ ")" ∈ stdout o /\
  "缺少座標筆數: " +:+ pretty (missing_coord c) ∈ stdout o /\
  "座標可疑筆數(超出台灣範圍): " +:+ pretty (suspicious_coord c) ∈ stdout o /\
  total c = length stores /\
  written c = length (csv_rows o) /\
  missing_coord c = length
    (List.filter (fun st => kept only_toilets st
                            && missing_row (canonical st)) stores) /\
  suspicious_coord c = length
    (List.filter (fun st => kept only_toilets st
                            && suspicious_row (canonical st)) stores).
Proof.
  intros stores o c. subst o c. unfold export_csv. fold stores.
  rewrite export_loop_eq.
  cbn [returned stdout csv_rows count rows printed total written
       missing_coord suspicious_coord].
  split; [reflexivity|]. split; [reflexivity|].
  repeat split; try (by rewrite length_fmap);
    apply elem_of_app; right; unfold report; apply elem_of_app; left;
    repeat first [apply list_elem_of_here | apply list_elem_of_further].
Qed.

(** C5. The suspicious-coordinate counter goes up by one exactly for a
    record that passes the filter, has non-empty [lat] and [lng], and has a
    value outside latitude 20.0-27.0 or longitude 118.0-123.5; a value that
    cannot be read as a float at this stage changes neither the missing nor
    the suspicious counter. *)
Theorem suspicious_counter_exact (only_toilets include_debug : bool) :
  (forall r st,
      suspicious_coord (count (export_step only_toilets include_debug r st))
      = (suspicious_coord (count r)
         + Nat.b2n (kept only_toilets st
                    && suspicious_row (canonical st)))%nat) /\
  (forall stores,
      suspicious_coord (count (export_loop only_toilets include_debug stores))
      = length (List.filter
                  (fun st => kept only_toilets st
                             && suspicious_row (canonical st)) stores)) /\
  (forall st,
      suspicious_row (canonical st)
      = match coordinates st with
        | (Some lng, Some lat) =>
            outside lat_min lat_max lat || outside lng_min lng_max lng
        | _ => false
        end) /\
  (forall lat lng c,
      is_empty_text lat = false -> is_empty_text lng = false ->
      py_float lat = None \/ py_float lng = None ->
      bookkeeping lat lng c = c).
Proof.
  split; [|split; [|split]].
  - intros r st. rewrite export_step_eq. cbn zeta.
    destruct (kept only_toilets st); cbn [count suspicious_coord andb Nat.b2n];
      lia.
  - intros stores. by rewrite export_loop_eq.
  - intros st. unfold suspicious_row.
    rewrite canonical_lat, canonical_lng.
    by destruct (coordinates st) as [[lng|] [lat|]].
  - intros lat lng c Hlat Hlng H. unfold bookkeeping.
    rewrite Hlat, Hlng. cbn [orb].
    destruct H as [-> | ->]; [done|]. by destruct (py_float lat).
Qed.

Lemma suspicious_counter_exact_witness :
  bookkeeping (Some (VStr "north")) (Some (VFloat lng_min)) (Counters 3 2 1 0)
  = Counters 3 2 1 0.
Proof.
  apply (proj2 (proj2 (proj2 (suspicious_counter_exact false false))));
    [reflexivity | reflexivity | left; vm_compute; reflexivity].
Defined.

Lemma row_of_plain st :
  row_of false st = writerow prisma_fields (canonical st).
Proof. unfold row_of, written_row, fieldnames. by rewrite app_nil_r. Qed.

Lemma row_of_audited st :
  row_of true st
  = row_of false st ++ writerow debug_fields (cell <$> audit st).
Proof.
  rewrite row_of_plain. unfold row_of, written_row, fieldnames, canonical, audit.
  rewrite build_location_row_eq. cbn [fst snd].
  rewrite merged_cells. f_equal.
Qed.

Lemma row_of_plain_length st : length (row_of false st) = 13%nat.
Proof.
  rewrite row_of_plain. unfold canonical. rewrite build_location_row_eq.
  cbn [fst]. by rewrite prisma_cells.
Qed.

(** Every key of the dictionary handed to the writer is one of the
    columns: the writer's refusal of unknown keys never applies. *)
Lemma written_keys_are_columns include_debug st k :
  is_Some (written_row include_debug st !! k) ->
  k ∈ fieldnames include_debug.
Proof.
  unfold written_row, canonical, audit. rewrite build_location_row_eq.
  cbn [fst snd]. unfold fieldnames, prisma_fields, debug_fields.
  destruct include_debug; intros [v Hv].
  - apply lookup_union_Some_raw in Hv as [Hv|[_ Hv]].
    + apply lookup_fmap_Some in Hv as (a & _ & Ha).
      unfold debug_row_of in Ha.
      repeat (apply lookup_insert_Some in Ha as [[<- _]|[_ Ha]];
              [set_solver|]).
      by rewrite lookup_empty in Ha.
    + unfold prisma_row_of in Hv.
      repeat (apply lookup_insert_Some in Hv as [[<- _]|[_ Hv]];
              [set_solver|]).
      by rewrite lookup_empty in Hv.
  - unfold prisma_row_of in Hv.
    repeat (apply lookup_insert_Some in Hv as [[<- _]|[_ Hv]];
            [set_solver|]).
    by rewrite lookup_empty in Hv.
Qed.

(** C6. The service tag of the audit row is true exactly when the raw
    service text contains the marker "02廁所", and false when that text is
    absent or empty; the filter of the export, when on, keeps exactly the
    records with this tag, and no record is dropped otherwise. *)
Theorem service_tag_is_marker_containment :
  (forall st : store,
      snd (build_location_row st) !! "has_toilet_service_tag"
      = Some (ABool (Text.py_in marker (get st "storeimagetitle" "")))) /\
  (forall raw : string,
      Text.py_in marker raw = true <->
      exists before after, raw = before +:+ marker +:+ after) /\
  (forall st : store,
      snd (build_location_row (delete "storeimagetitle" st))
        !! "has_toilet_service_tag" = Some (ABool false) /\
      snd (build_location_row (<["storeimagetitle" := ""]> st))
        !! "has_toilet_service_tag" = Some (ABool false)) /\
  (forall st : store,
      has_toilet_of (snd (build_location_row st))
      = Text.py_in marker (get st "storeimagetitle" "")) /\
  (forall input_xml doc output_csv include_debug,
      csv_rows (export_csv input_xml doc output_csv true include_debug)
      = row_of include_debug <$> List.filter tagged (iter_711_stores doc) /\
      csv_rows (export_csv input_xml doc output_csv false include_debug)
      = row_of include_debug <$> iter_711_stores doc).
Proof.
  assert (forall st : store,
      snd (build_location_row st) !! "has_toilet_service_tag"
      = Some (ABool (Text.py_in marker (get st "storeimagetitle" "")))) as Htag.
  { intros st. rewrite build_location_row_eq. cbn [snd].
    by rewrite audit_tag, marker_in_strip. }
  split; [exact Htag|]. split; [intros raw; apply py_in_spec|].
  split; [|split].
  - intros st. rewrite !Htag. unfold get.
    by rewrite lookup_delete_eq, lookup_insert_eq.
  - intros st. apply (has_toilet_of_audit st).
  - intros input_xml doc output_csv include_debug. unfold export_csv.
    cbn [csv_rows]. rewrite !export_loop_eq. cbn [rows]. split.
    + f_equal.
    + f_equal. unfold kept. cbn [negb orb].
      induction (iter_711_stores doc) as [|st l IH]; [done|].
      cbn [List.filter]. by rewrite IH.
Qed.

(** C7. Two exports of one document with the same filter setting, one
    with and one without the audit columns, write the same number of data
    rows, with the same thirteen canonical cells in each row; the audit
    setting only appends the ten audit columns. *)
Theorem audit_columns_are_only_appended
    (input_xml output_csv : string) (doc : element) (only_toilets : bool) :
  let with_audit := export_csv input_xml doc output_csv only_toilets true in
  let without := export_csv input_xml doc output_csv only_toilets false in
  let K := List.filter (kept only_toilets) (iter_711_stores doc) in
  length (csv_rows with_audit) = length (csv_rows without) /\
  take 13 <$> csv_rows with_audit = csv_rows without /\
  csv_rows without = row_of false <$> K /\
  csv_rows with_audit
  = (fun st => row_of false st ++ writerow debug_fields (cell <$> audit st))
      <$> K /\
  csv_header without = prisma_fields /\
  csv_header with_audit = csv_header without ++ debug_fields /\
  count (export_loop only_toilets true (iter_711_stores doc))
  = count (export_loop only_toilets false (iter_711_stores doc)).
Proof.
  intros with_audit without K. subst with_audit without. unfold export_csv.
  cbn [csv_rows csv_header]. rewrite !export_loop_eq. cbn [rows count].
  fold K. rewrite !length_fmap.
  assert (row_of true <$> K
          = (fun st => row_of false st
                       ++ writerow debug_fields (cell <$> audit st)) <$> K)
    as E.
  { apply list_fmap_ext. intros _ st _. apply row_of_audited. }
  repeat split; try done.
  rewrite E, <- list_fmap_compose. apply list_fmap_ext. intros _ st _.
  unfold compose. cbv beta. by rewrite take_app_length' by (by rewrite row_of_plain_length).
Qed.

(** C9. On a document without record element the export completes, writes
    the header row and no data row, and all four counters are zero. *)
Theorem export_without_records
    (input_xml output_csv : string) (doc : element)
    (only_toilets include_debug : bool) :
  has_target doc = false ->
  iter_711_stores doc = [] /\
  export_csv input_xml doc output_csv only_toilets include_debug
  = Outcome (fieldnames include_debug) []
            (report input_xml output_csv only_toilets (Counters 0 0 0 0))
            PyNone /\
  count (export_loop only_toilets include_debug (iter_711_stores doc))
  = Counters 0 0 0 0.
Proof.
  intros H%no_target_no_records. unfold export_csv. rewrite H.
  repeat split; reflexivity.
Qed.

Lemma export_without_records_witness :
  export_csv "711_data.xml" doc_empty "711_locations.csv" true true
  = Outcome (fieldnames true) []
            (report "711_data.xml" "711_locations.csv" true
                    (Counters 0 0 0 0))
            PyNone.
Proof.
  apply (export_without_records "711_data.xml" "711_locations.csv"
                                doc_empty true true).
  vm_compute. reflexivity.
Defined.

(** C10. Some non-empty texts that are no plain decimal numerals, such as
    "inf", "nan" and "1e3", are read as floats; the normaliser then returns
    present coordinates that are not finite, and the export counts such a
    record as suspicious, not as missing. *)
Theorem nonfinite_coordinates_are_suspicious :
  Forall (fun s => Text.is_empty s = false /\ plain_numeral s = false)
         ["inf"; "nan"; "1e3"] /\
  _parse_float "inf" = Some (F64.infinity false) /\
  _parse_float "nan" = Some F64.nan /\
  _parse_float "1e3" = Some thousand /\
  _normalize_lng_lat "inf" "nan"
  = (Some (F64.infinity false), Some F64.nan) /\
  F64.is_finite (F64.infinity false) = false /\
  F64.is_finite F64.nan = false /\
  iter_711_stores doc_nonfinite = [<["x" := "inf"]> (<["y" := "nan"]> ∅)]
  /\
  count (export_loop false true (iter_711_stores doc_nonfinite))
  = Counters 1 1 0 1.
Proof.
  split; [repeat (apply Forall_cons; split; [by vm_compute|]);
          apply Forall_nil_2|].
  repeat split; vm_compute; reflexivity.
Qed.

(** * Further properties of the module *)

(** ** Trimming *)

Lemma lstrip_with_fixed pats n l :
  Text.drop_one pats l = None -> Text.lstrip_with pats n l = l.
Proof. intros H. destruct n; cbn [Text.lstrip_with]; [done|]. by rewrite H. Qed.

(** A text that starts and ends with no pattern is left as it is. *)
Lemma strip_with_fixed pats l :
  Text.drop_one pats l = None ->
  Text.drop_one (reverse <$> pats) (reverse l) = None ->
  Text.strip_with pats l = l.
Proof.
  intros Hl Hr. unfold Text.strip_with, Text.rstrip_with.
  rewrite (lstrip_with_fixed _ _ _ Hl), (lstrip_with_fixed _ _ _ Hr).
  apply reverse_involutive.
Qed.

Lemma strip_idempotent s : Text.strip (Text.strip s) = Text.strip s.
Proof.
  destruct (strip_trimmed s) as [Hl Hr].
  unfold Text.strip at 1. rewrite (strip_with_fixed _ _ Hl Hr).
  apply text_chars.
Qed.

(** X1. The text of an element is returned trimmed: it starts and ends
    with no white space, trimming it again changes nothing, and it is empty
    when the element or its text is missing. *)
Theorem safe_text_is_trimmed (elem : option element) :
  Text.strip (_safe_text elem) = _safe_text elem /\
  Text.drop_one Text.spaces (Text.chars (_safe_text elem)) = None /\
  Text.drop_one (reverse <$> Text.spaces)
                (reverse (Text.chars (_safe_text elem))) = None /\
  (elem = None \/ (exists e, elem = Some e /\ text_of e = None) ->
   _safe_text elem = "").
Proof.
  destruct elem as [[tag [t|] children]|]; cbn [_safe_text text_of].
  - split; [apply strip_idempotent|].
    destruct (strip_trimmed t) as [Hl Hr]. split; [exact Hl|].
    split; [exact Hr|]. intros [H|(e & [= <-] & H)]; discriminate H.
  - repeat split; reflexivity.
  - repeat split; reflexivity.
Qed.

(** ** Numerals made of digits *)

Ltac by_bits c := destruct c as [[] [] [] [] [] [] [] []].

Lemma digit_not_underscore c :
  PyFloat.is_digit c = true -> Text.ascii_eqb c "_" = false.
Proof.
  intros H. by_bits c; first [reflexivity | vm_compute in H; discriminate H].
Qed.

Lemma digit_is_ascii c : PyFloat.is_digit c = true -> (Text.code c <? 127)%N = true.
Proof.
  intros H. by_bits c; first [reflexivity | vm_compute in H; discriminate H].
Qed.

(** No white space pattern starts or ends with a digit. *)
Lemma spaces_miss_digit c l :
  PyFloat.is_digit c = true ->
  Text.drop_one Text.spaces (c :: l) = None /\
  Text.drop_one (reverse <$> Text.spaces) (c :: l) = None /\
  Text.drop_one PyFloat.c_spaces (c :: l) = None /\
  Text.drop_one (reverse <$> PyFloat.c_spaces) (c :: l) = None.
Proof.
  intros H. by_bits c; try (vm_compute in H; discriminate H);
    repeat split; reflexivity.
Qed.

Lemma read_sign_digit c l :
  PyFloat.is_digit c = true -> PyFloat.read_sign (c :: l) = (false, c :: l).
Proof.
  intros H. by_bits c; try (vm_compute in H; discriminate H); reflexivity.
Qed.

Lemma special_digit neg c l :
  PyFloat.is_digit c = true -> PyFloat.special neg (c :: l) = None.
Proof.
  intros H. unfold PyFloat.special. cbn [fmap list_fmap Text.text
    String.string_of_list_ascii].
  by_bits c; try (vm_compute in H; discriminate H);
    repeat case_decide; try reflexivity;
    repeat match goal with
           | E : _ \/ _ |- _ => destruct E
           | E : String _ _ = _ |- _ => discriminate E
           end.
Qed.

Lemma ascii_text_roundtrip l :
  Forall (fun c => (Text.code c <? 127)%N = true) l ->
  PyFloat.to_ascii (Text.code_points l) = l.
Proof.
  induction 1 as [|c l Hc _ IH]; [done|].
  assert ((Text.code c <? 128)%N = true) as H128.
  { apply N.ltb_lt. apply N.ltb_lt in Hc. lia. }
  cbn [Text.code_points]. rewrite H128. cbn [PyFloat.to_ascii].
  rewrite Hc, IH. unfold Text.code. by rewrite ascii_N_embedding.
Qed.

Lemma drop_underscores_digits prev l :
  Text.ascii_eqb prev "_" = false ->
  Forall (fun c => PyFloat.is_digit c = true) l ->
  PyFloat.drop_underscores prev l = Some l.
Proof.
  intros Hprev Hl. revert prev Hprev.
  induction Hl as [|c l Hc _ IH]; intros prev Hprev;
    cbn [PyFloat.drop_underscores]; rewrite Hprev; [done|].
  rewrite (digit_not_underscore _ Hc). cbn [andb].
  by rewrite (IH _ (digit_not_underscore _ Hc)).
Qed.

Lemma span_digits_all l :
  Forall (fun c => PyFloat.is_digit c = true) l ->
  PyFloat.span_digits l = (l, []).
Proof.
  induction 1 as [|c l Hc _ IH]; [done|].
  cbn [PyFloat.span_digits]. by rewrite Hc, IH.
Qed.

(** A non-empty run of digits is trimmed by no pattern set that misses
    digits at both ends. *)
Lemma digits_untrimmed pats l :
  (forall c t, PyFloat.is_digit c = true ->
               Text.drop_one pats (c :: t) = None /\
               Text.drop_one (reverse <$> pats) (c :: t) = None) ->
  l <> [] ->
  Forall (fun c => PyFloat.is_digit c = true) l ->
  Text.strip_with pats l = l.
Proof.
  intros Hp Hne Hl. apply strip_with_fixed.
  - destruct Hl as [|c l Hc _]; [done|]. by apply Hp.
  - apply Forall_reverse in Hl.
    destruct (reverse l) as [|c t] eqn:E.
    + apply (f_equal reverse) in E. by rewrite reverse_involutive in E.
    + apply Forall_cons in Hl as [Hc _]. by apply Hp.
Qed.

(** X2. A non-empty text made of ASCII digits is always read as a float:
    the binary64 number nearest to the integer it denotes. *)
Theorem digit_text_always_parses (s : string) :
  s <> "" ->
  Forall (fun c => PyFloat.is_digit c = true) (Text.chars s) ->
  _parse_float s
  = Some (F64.of_decimal false (PyFloat.digits_value (Text.chars s)) 0).
Proof.
  intros Hs Hd.
  assert (Text.chars s <> []) as Hne.
  { intros E. apply Hs. by rewrite <- (text_chars s), E. }
  assert (Text.strip s = s) as Hstrip.
  { unfold Text.strip.
    rewrite digits_untrimmed; [apply text_chars| |exact Hne|exact Hd].
    intros c t Hc. destruct (spaces_miss_digit c t Hc) as (H1 & H2 & _).
    split; [exact H1 | exact H2]. }
  unfold _parse_float. rewrite Hstrip.
  destruct s as [|a s]; [done|]. cbn [Text.is_empty].
  unfold PyFloat.of_str.
  rewrite ascii_text_roundtrip
    by (eapply Forall_impl; [exact Hd | apply digit_is_ascii]).
  rewrite drop_underscores_digits by done. cbn [mbind option_bind].
  rewrite digits_untrimmed; [|intros c t Hc;
    destruct (spaces_miss_digit c t Hc) as (_ & _ & H1 & H2);
    split; [exact H1 | exact H2]|exact Hne|exact Hd].
  remember (Text.chars (String a s)) as l eqn:El.
  destruct l as [|c l']; [by destruct Hne|].
  pose proof Hd as Hd'. apply Forall_cons in Hd' as [Hc _].
  rewrite (read_sign_digit _ _ Hc), (special_digit _ _ _ Hc).
  unfold PyFloat.numeral. rewrite (span_digits_all _ Hd).
  cbn [app length]. by rewrite app_nil_r.
Qed.

Lemma digit_text_always_parses_witness :
  _parse_float "121532554"
  = Some (F64.of_decimal false
            (PyFloat.digits_value (Text.chars "121532554")) 0).
Proof.
  apply digit_text_always_parses; [discriminate|].
  repeat (apply Forall_cons; split; [reflexivity|]). apply Forall_nil_2.
Defined.

(** ** Sign of a coordinate *)

Lemma binary_round_aux_opp s m e l :
  binary_round_aux F64.prec F64.emax (negb s) m e l
  = SFopp (binary_round_aux F64.prec F64.emax s m e l).
Proof.
  unfold binary_round_aux.
  destruct (shr_fexp F64.prec F64.emax m e l) as [mrs e1].
  destruct (shr_fexp F64.prec F64.emax _ e1 loc_Exact) as [mrs2 e2].
  destruct (shr_m mrs2); [reflexivity | | reflexivity].
  by destruct (e2 <=? F64.emax - F64.prec).
Qed.

Lemma div_opp x y : F64.div (SFopp x) y = SFopp (F64.div x y).
Proof.
  unfold F64.div.
  destruct x as [sx|sx| |sx mx ex], y as [sy|sy| |sy my ey];
    cbn [SFdiv SFopp]; try reflexivity;
    try (by destruct sx, sy).
  destruct (SFdiv_core_binary F64.prec F64.emax (Z.pos mx) ex (Z.pos my) ey)
    as [[mz ez] lz].
  rewrite <- binary_round_aux_opp. by destruct sx, sy.
Qed.

Lemma abs_opp x : F64.abs (SFopp x) = F64.abs x.
Proof. by destruct x. Qed.

(** X3. The magnitude heuristic does not depend on the sign: the opposite
    of a value is rescaled exactly when the value is, to the opposite
    result. *)
Theorem rescale_commutes_with_opposite (v : float) :
  rescale (SFopp v) = SFopp (rescale v) /\
  F64.gtb (F64.abs (SFopp v)) thousand = F64.gtb (F64.abs v) thousand.
Proof.
  unfold rescale. rewrite abs_opp. split; [|reflexivity].
  destruct (F64.gtb (F64.abs v) thousand); [apply div_opp | reflexivity].
Qed.

(** X4. The normaliser returns a pair of present values exactly when both
    raw texts are read as floats; the two axes are treated alike, so
    exchanging the raw texts exchanges the results. *)
Theorem normalize_present_iff_both_parse (x_raw y_raw : string) :
  let r := _normalize_lng_lat x_raw y_raw in
  (is_Some (fst r) <->
   is_Some (_parse_float x_raw) /\ is_Some (_parse_float y_raw)) /\
  (is_Some (fst r) <-> is_Some (snd r)) /\
  _normalize_lng_lat y_raw x_raw = (snd r, fst r).
Proof.
  cbv zeta. unfold _normalize_lng_lat.
  destruct (_parse_float x_raw) as [x|], (_parse_float y_raw) as [y|];
    cbn [fst snd]; split_and?; try reflexivity;
    split; intros;
    repeat match goal with
           | H : is_Some None |- _ => destruct (is_Some_None H)
           | H : _ /\ _ |- _ => destruct H
           | |- _ /\ _ => split
           end; eauto.
Qed.

(** ** The mapping of a record element *)

(** The mapping built from the children [cs], starting from [m]. *)
Lemma dict_from_lookup (cs : list element) (m : store) (k : string) :
  fold_left
    (fun out child =>
       <[Text.lower (Text.strip (tag_of child)) := _safe_text (Some child)]> out)
    cs m !! k
  = match last (List.filter (fun c => bool_decide (key_of c = k)) cs) with
    | Some c => Some (_safe_text (Some c))
    | None => m !! k
    end.
Proof.
  revert m. induction cs as [|c cs IH]; intros m; [done|].
  cbn [fold_left List.filter]. rewrite IH. fold (key_of c).
  case_bool_decide as Hk.
  - rewrite last_cons.
    destruct (last (List.filter _ cs)); [done|].
    by rewrite Hk, lookup_insert_eq.
  - destruct (last (List.filter _ cs)); [done|].
    by rewrite lookup_insert_ne.
Qed.


Lemma element_dict_value (parent : element) k v :
  _element_to_dict_case_insensitive parent !! k = Some v ->
  exists c, c ∈ children_of parent /\ key_of c = k /\
            v = _safe_text (Some c).
Proof.
  unfold _element_to_dict_case_insensitive. rewrite dict_from_lookup.
  destruct (last _) as [c|] eqn:E; [|by rewrite lookup_empty].
  intros [= <-]. apply last_Some_elem_of, list_elem_of_In, filter_In in E.
  destruct E as [Hin Hk]. apply bool_decide_eq_true in Hk.
  exists c. by rewrite list_elem_of_In.
Qed.

Lemma get_trimmed (parent : element) k :
  Text.strip (get (_element_to_dict_case_insensitive parent) k "")
  = get (_element_to_dict_case_insensitive parent) k "".
Proof.
  unfold get.
  destruct (_element_to_dict_case_insensitive parent !! k) as [v|] eqn:E;
    cbn [default from_option id]; [|apply strip_empty].
  apply element_dict_value in E as (c & _ & _ & ->).
  destruct c as [tag [t|] children]; cbn [_safe_text text_of];
    [apply strip_idempotent | apply strip_empty].
Qed.

Lemma prisma_name name description lat lng :
  prisma_row_of name description lat lng !! "name" = Some (VStr name).
Proof. vm_compute. reflexivity. Qed.

(** X6. A mapping that comes from the extractor is already trimmed, so the
    record mapper reproduces its fields as they are: the audit row holds
    the extracted identifier, name, address, phone, hours, services and
    raw coordinates unchanged, and the name column is the brand followed
    by the extracted name. *)
Theorem extracted_fields_are_kept (parent : element) :
  let st := _element_to_dict_case_insensitive parent in
  snd (build_location_row st)
  = debug_row_of (get st "poiid" "") (get st "poiname" "")
                 (get st "address" "") (get st "telno" "")
                 (get st "op_time" "") (get st "storeimagetitle" "")
                 (get st "x" "") (get st "y" "")
                 (Text.py_in marker (get st "storeimagetitle" "")) /\
  fst (build_location_row st) !! "name"
  = Some (VStr (if Text.is_empty (get st "poiname" "") then "7-ELEVEN"
                else "7-ELEVEN " +:+ get st "poiname" "")).
Proof.
  cbv zeta. rewrite build_location_row_eq. cbn [fst snd].
  rewrite prisma_name. unfold display_name.
  rewrite !get_trimmed. split; [reflexivity|].
  by destruct (Text.is_empty _).
Qed.

(** ** The records of a document *)

Lemma visit_count e : length (fst (visit e)) = count_targets e.
Proof.
  induction e as [tag text children IH] using element_induction.
  cbn [visit count_targets].
  assert (length (concat (fst <$> map visit children))
          = list_sum (map count_targets children)) as E.
  { induction children as [|c children IHc]; [done|].
    apply Forall_cons in IH as [Hc Hcs].
    cbn [map fmap list_fmap concat].
    rewrite length_app, Hc, (IHc Hcs). reflexivity. }
  destruct (is_geoposition tag); cbn [fst].
  - rewrite length_app, E. reflexivity.
  - rewrite E. lia.
Qed.

(** X7. The extractor yields one record for every element whose tag,
    trimmed and lower-cased, is "geoposition", wherever it lies in the
    document, and the total counter of an export is that number. *)
Theorem one_record_per_target (doc : element)
    (only_toilets include_debug : bool) :
  length (iter_711_stores doc) = count_targets doc /\
  total (count (export_loop only_toilets include_debug
                            (iter_711_stores doc)))
  = count_targets doc.
Proof.
  assert (length (iter_711_stores doc) = count_targets doc) as E
    by apply visit_count.
  split; [exact E|]. rewrite export_loop_eq. cbn [count total]. exact E.
Qed.

Lemma targets_without_target e : has_target e = false -> targets e = [].
Proof.
  induction e as [tag text children IH] using element_induction.
  cbn [has_target targets]. intros [Htag Hkids]%orb_false_iff.
  rewrite Htag, app_nil_r.
  induction children as [|c children IHc]; [done|].
  cbn [existsb] in Hkids. apply orb_false_iff in Hkids as [Hc Hcs].
  apply Forall_cons in IH as [IHhd IHtl].
  cbn [map concat]. rewrite (IHhd Hc). by apply IHc.
Qed.

Lemma visit_children_without_target children :
  existsb has_target children = false ->
  concat (fst <$> map visit children) = [] /\
  snd <$> map visit children = children.
Proof.
  induction children as [|c children IH]; [done|].
  cbn [existsb]. intros [Hc Hcs]%orb_false_iff.
  cbn [map fmap list_fmap concat]. rewrite (visit_without_target _ Hc).
  destruct (IH Hcs) as [E1 E2]. cbn [fst snd app]. split; [exact E1|].
  f_equal. exact E2.
Qed.

(** X8. When no record element lies inside another one, the records are
    the mappings of the record elements of the document, in the order of
    their end tags. *)
Theorem records_of_flat_document (doc : element) :
  no_nested_targets doc = true ->
  iter_711_stores doc = _element_to_dict_case_insensitive <$> targets doc.
Proof.
  unfold iter_711_stores.
  induction doc as [tag text children IH] using element_induction.
  cbn [no_nested_targets visit targets].
  intros [Hkids Hhere]%andb_true_iff.
  assert (concat (fst <$> map visit children)
          = _element_to_dict_case_insensitive
              <$> concat (map targets children)) as E.
  { clear Hhere. induction children as [|c children IHc]; [done|].
    cbn [forallb] in Hkids. apply andb_true_iff in Hkids as [Hc Hcs].
    apply Forall_cons in IH as [IHhd IHtl].
    change (map visit (c :: children)) with (visit c :: map visit children).
    change (map targets (c :: children))
      with (targets c :: map targets children).
    rewrite fmap_cons. cbn [concat].
    rewrite fmap_app, (IHhd Hc), (IHc IHtl Hcs). reflexivity. }
  destruct (is_geoposition tag); cbn [fst].
  - apply negb_true_iff in Hhere.
    destruct (visit_children_without_target _ Hhere) as [E1 E2].
    rewrite fmap_app, <- E, E1, E2. reflexivity.
  - by rewrite app_nil_r.
Qed.

Lemma records_of_flat_document_witness :
  iter_711_stores doc_two
  = _element_to_dict_case_insensitive <$> targets doc_two.
Proof. apply records_of_flat_document. vm_compute. reflexivity. Defined.

Lemma visit_keeps_tag e : tag_of (snd (visit e)) = tag_of e.
Proof. destruct e as [tag text children]. cbn [visit]. by destruct (is_geoposition tag). Qed.

Lemma visit_clears_target e :
  is_geoposition (tag_of e) = true ->
  snd (visit e) = Element (tag_of e) None [].
Proof.
  destruct e as [tag text children]. cbn [visit tag_of]. by intros ->.
Qed.

(** X9. A record element that contains a record element is yielded after
    it, and its own mapping then holds the key "geoposition" with the empty
    text: the inner element was emptied once yielded. *)
Theorem nested_target_is_seen_emptied
    (tag : string) (text : option string) (children : list element) :
  is_geoposition tag = true ->
  existsb (fun c => is_geoposition (tag_of c)) children = true ->
  exists d, last (iter_711_stores (Element tag text children)) = Some d /\
            d !! "geoposition" = Some "".
Proof.
  intros Htag Hex. unfold iter_711_stores. cbn [visit]. rewrite Htag.
  cbn [fst]. eexists. split; [apply last_snoc|].
  unfold _element_to_dict_case_insensitive. rewrite dict_from_lookup.
  cbn [children_of].
  set (F := List.filter (fun c => bool_decide (key_of c = "geoposition"))
                        (snd <$> map visit children)).
  assert (forall z, In z F -> _safe_text (Some z) = "") as Hall.
  { intros z [Hin Hk]%filter_In. apply bool_decide_eq_true in Hk.
    apply list_elem_of_In, list_elem_of_fmap in Hin as (p & -> & Hp).
    apply list_elem_of_In, in_map_iff in Hp as (c & <- & _).
    rewrite visit_clears_target; [reflexivity|].
    unfold key_of in Hk. rewrite visit_keeps_tag in Hk.
    unfold is_geoposition. by apply bool_decide_eq_true. }
  assert (F <> []) as Hne.
  { apply existsb_exists in Hex as (c & Hin & Hc).
    assert (In (snd (visit c)) F) as HF; [|by intros E; rewrite E in HF].
    apply filter_In. split.
    - apply list_elem_of_In, list_elem_of_fmap. exists (visit c).
      split; [done|]. by apply list_elem_of_In, in_map.
    - apply bool_decide_eq_true. unfold key_of. rewrite visit_keeps_tag.
      unfold is_geoposition in Hc. by apply bool_decide_eq_true in Hc. }
  apply last_is_Some in Hne as [z Hz]. rewrite Hz.
  f_equal. apply Hall. by apply list_elem_of_In, last_Some_elem_of.
Qed.

Lemma nested_target_is_seen_emptied_witness :
  exists d,
    last (iter_711_stores
            (Element "GeoPosition" None
               [leaf "X" "1"; Element "geoposition" (Some "in") []]))
    = Some d /\ d !! "geoposition" = Some "".
Proof.
  apply nested_target_is_seen_emptied; vm_compute; reflexivity.
Defined.

(** ** The rows of the record mapper *)

Lemma prisma_row_keys name description lat lng k :
  is_Some (prisma_row_of name description lat lng !! k)
  <-> k ∈ prisma_fields.
Proof.
  unfold prisma_fields. split.
  - intros [v Hv]. unfold prisma_row_of in Hv.
    repeat (apply lookup_insert_Some in Hv as [[<- _]|[_ Hv]];
            [set_solver|]).
    by rewrite lookup_empty in Hv.
  - intros Hk.
    repeat (apply elem_of_cons in Hk as [->|Hk]; [vm_compute; eauto|]).
    by apply elem_of_nil in Hk.
Qed.

Lemma debug_row_keys poiid name address tel op_time services x y t k :
  is_Some (debug_row_of poiid name address tel op_time services x y t !! k)
  <-> k ∈ debug_fields.
Proof.
  unfold debug_fields. split.
  - intros [v Hv]. unfold debug_row_of in Hv.
    repeat (apply lookup_insert_Some in Hv as [[<- _]|[_ Hv]];
            [set_solver|]).
    by rewrite lookup_empty in Hv.
  - intros Hk.
    repeat (apply elem_of_cons in Hk as [->|Hk]; [vm_compute; eauto|]).
    by apply elem_of_nil in Hk.
Qed.

Lemma prisma_constants name description lat lng :
  prisma_row_of name description lat lng !! "type" = Some (VStr "TOILET") /\
  prisma_row_of name description lat lng !! "floor" = Some (VStr "") /\
  Forall (fun k => prisma_row_of name description lat lng !! k
                   = Some (VBool false))
         ["hasTissue"; "hasDryer"; "hasSeat"; "hasDiaperTable";
          "hasWaterDispenser"; "hasAutoDoor"; "hasHandrail"].
Proof.
  split; [vm_compute; reflexivity|]. split; [vm_compute; reflexivity|].
  repeat (apply Forall_cons; split; [vm_compute; reflexivity|]).
  apply Forall_nil_2.
Qed.

(** X10. Whatever the mapping, the canonical row has exactly the thirteen
    canonical columns and the audit row exactly the ten audit columns; the
    type is "TOILET", the floor is empty and every facility flag is
    false. *)
Theorem rows_have_the_fixed_columns (st : store) :
  (forall k, is_Some (fst (build_location_row st) !! k)
             <-> k ∈ prisma_fields) /\
  (forall k, is_Some (snd (build_location_row st) !! k)
             <-> k ∈ debug_fields) /\
  fst (build_location_row st) !! "type" = Some (VStr "TOILET") /\
  fst (build_location_row st) !! "floor" = Some (VStr "") /\
  Forall (fun k => fst (build_location_row st) !! k = Some (VBool false))
         ["hasTissue"; "hasDryer"; "hasSeat"; "hasDiaperTable";
          "hasWaterDispenser"; "hasAutoDoor"; "hasHandrail"].
Proof.
  rewrite build_location_row_eq. cbn [fst snd].
  split; [intros k; apply prisma_row_keys|].
  split; [intros k; apply debug_row_keys|].
  apply prisma_constants.
Qed.

(** X11. In every canonical row [lat] and [lng] are either both the empty
    text or both floats, the rescaled values of the raw coordinates; so a
    written record is never counted both as missing and as suspicious. *)
Theorem row_coordinates_both_or_neither (st : store) :
  let row := fst (build_location_row st) in
  (row !! "lat" = Some (VStr "") /\ row !! "lng" = Some (VStr "") /\
   missing_row row = true /\ suspicious_row row = false) \/
  (exists x y,
      _parse_float (get st "x" "") = Some x /\
      _parse_float (get st "y" "") = Some y /\
      row !! "lat" = Some (VFloat (rescale y)) /\
      row !! "lng" = Some (VFloat (rescale x)) /\
      missing_row row = false).
Proof.
  cbv zeta. fold (canonical st). unfold missing_row, suspicious_row.
  rewrite canonical_lat, canonical_lng. unfold coordinates, _normalize_lng_lat.
  destruct (_parse_float (get st "x" "")) as [x|];
    [destruct (_parse_float (get st "y" "")) as [y|]|].
  - right. exists x, y. repeat split; reflexivity.
  - left. repeat split; reflexivity.
  - left. repeat split; reflexivity.
Qed.

(** X12. The record mapper reads eight keys and nothing else: two mappings
    that agree on them, an absent key counting as the empty text, give the
    same two rows. *)
Theorem unread_keys_are_ignored (st1 st2 : store) :
  Forall (fun k => get st1 k "" = get st2 k "") recognised_keys ->
  build_location_row st1 = build_location_row st2.
Proof.
  intros H. unfold recognised_keys in H.
  repeat (apply Forall_cons in H as [? H]).
  rewrite !build_location_row_eq.
  unfold display_name, description_of, coordinates.
  repeat match goal with
         | E : get st1 _ "" = get st2 _ "" |- _ => rewrite E; clear E
         end.
  reflexivity.
Qed.

Lemma unread_keys_are_ignored_witness :
  build_location_row (<["fax" := "02-1234"]> {["poiname" := "台大"]})
  = build_location_row (<["poiid" := ""]> {["poiname" := "台大"]}).
Proof.
  apply unread_keys_are_ignored. unfold recognised_keys.
  repeat (apply Forall_cons; split; [vm_compute; reflexivity|]).
  apply Forall_nil_2.
Defined.

Lemma string_app_assoc (a b c : string) : (a +:+ b) +:+ c = a +:+ b +:+ c.
Proof.
  induction a as [|x a IH]; [done|].
  change (String x ((a +:+ b) +:+ c) = String x (a +:+ b +:+ c)).
  by rewrite IH.
Qed.

Lemma string_app_nil_r (a : string) : a +:+ "" = a.
Proof.
  induction a as [|x a IH]; [done|].
  change (String x (a +:+ "") = String x a). by rewrite IH.
Qed.

Lemma is_empty_labelled label v w :
  label <> "" -> Text.is_empty (label +:+ v +:+ w) = false.
Proof. by destruct label. Qed.

(** X13. The description is made of the address, the phone and the opening
    hours, in this order, each trimmed, given its label and closed by the
    separator "；"; an empty field contributes nothing, so the description
    is empty exactly when all three are. *)
Theorem description_lists_the_present_fields (st : store) :
  let address := Text.strip (get st "address" "") in
  let tel := Text.strip (get st "telno" "") in
  let op_time := Text.strip (get st "op_time" "") in
  fst (build_location_row st) !! "description"
  = Some (VStr (labelled "地址：" address +:+ labelled "電話：" tel
                +:+ labelled "營業時間：" op_time)) /\
  (fst (build_location_row st) !! "description" = Some (VStr "") <->
   address = "" /\ tel = "" /\ op_time = "").
Proof.
  cbv zeta. rewrite build_location_row_eq. cbn [fst].
  assert (forall n d a b, prisma_row_of n d a b !! "description"
                          = Some (VStr d)) as -> by (intros; vm_compute; reflexivity).
  unfold description_of, desc_parts, labelled.
  destruct (Text.strip (get st "address" "")) as [|a1 a];
    destruct (Text.strip (get st "telno" "")) as [|t1 t];
    destruct (Text.strip (get st "op_time" "")) as [|h1 h];
    cbn [Text.is_empty app Text.join];
    rewrite ?is_empty_labelled by discriminate;
    rewrite ?string_app_assoc, ?string_app_nil_r;
    (split; [reflexivity|]); split;
    try (intros (? & ? & ?); discriminate);
    try (intros [= E]; discriminate E); done.
Qed.

(** ** Counters and table of an export *)

Lemma missing_excludes_suspicious (row : gmap string value) :
  missing_row row && suspicious_row row = false.
Proof.
  unfold missing_row, suspicious_row.
  by destruct (is_empty_text (row !! "lat")), (is_empty_text (row !! "lng")).
Qed.

(** X14. Every record read is either written or skipped by the filter:
    total = written + skipped, and nothing is skipped when the filter is
    off. A written record adds to at most one of the missing and the
    suspicious counters, so their sum never exceeds the written count. *)
Theorem counters_add_up (only_toilets include_debug : bool)
    (stores : list store) :
  let c := count (export_loop only_toilets include_debug stores) in
  total c
  = (written c
     + length (List.filter (fun st => negb (kept only_toilets st)) stores))%nat
  /\ (missing_coord c + suspicious_coord c <= written c)%nat
  /\ written (count (export_loop false include_debug stores))
     = length stores.
Proof.
  cbv zeta. rewrite !export_loop_eq.
  cbn [count total written missing_coord suspicious_coord].
  split; [|split].
  - induction stores as [|st stores IH]; [done|].
    cbn [List.filter length]. destruct (kept only_toilets st);
      cbn [negb length]; lia.
  - induction stores as [|st stores IH]; [done|].
    cbn [List.filter]. destruct (kept only_toilets st); cbn [andb]; [|lia].
    pose proof (missing_excludes_suspicious (canonical st)) as Hex.
    destruct (missing_row (canonical st)), (suspicious_row (canonical st));
      cbn [length]; first [lia | discriminate Hex].
  - induction stores as [|st stores IH]; [done|].
    cbn [List.filter kept negb orb length]. by rewrite IH.
Qed.

Lemma row_of_coordinate_cells include_debug st :
  row_of include_debug st !! 3%nat = canonical st !! "lat" /\
  row_of include_debug st !! 4%nat = canonical st !! "lng".
Proof.
  assert (row_of false st !! 3%nat = canonical st !! "lat" /\
          row_of false st !! 4%nat = canonical st !! "lng") as [H3 H4].
  { rewrite row_of_plain, canonical_lat, canonical_lng.
    unfold canonical. rewrite build_location_row_eq. cbn [fst].
    rewrite prisma_cells. split; reflexivity. }
  destruct include_debug; [|by split].
  rewrite row_of_audited.
  rewrite !lookup_app_l by (rewrite row_of_plain_length; lia). by split.
Qed.

(** X15. The missing counter is the number of rows of the written table
    whose [lat] or [lng] cell is empty, and the suspicious counter the
    number of rows whose two coordinate cells are floats with one outside
    the bounding box. *)
Theorem counters_describe_the_table
    (input_xml output_csv : string) (doc : element)
    (only_toilets include_debug : bool) :
  let o := export_csv input_xml doc output_csv only_toilets include_debug in
  let c := count (export_loop only_toilets include_debug
                              (iter_711_stores doc)) in
  missing_coord c = length (List.filter lacks_coordinate_cell (csv_rows o))
  /\ suspicious_coord c
     = length (List.filter has_suspicious_cells (csv_rows o)).
Proof.
  cbv zeta. unfold export_csv. cbn [csv_rows]. rewrite export_loop_eq.
  cbn [count rows missing_coord suspicious_coord].
  assert (forall st, lacks_coordinate_cell (row_of include_debug st)
                     = missing_row (canonical st)) as Hm.
  { intros st. unfold lacks_coordinate_cell, missing_row.
    by destruct (row_of_coordinate_cells include_debug st) as [-> ->]. }
  assert (forall st, has_suspicious_cells (row_of include_debug st)
                     = suspicious_row (canonical st)) as Hs.
  { intros st. unfold has_suspicious_cells, suspicious_row.
    unfold lacks_coordinate_cell.
    destruct (row_of_coordinate_cells include_debug st) as [-> ->].
    by destruct (is_empty_text (canonical st !! "lat")),
                (is_empty_text (canonical st !! "lng")). }
  induction (iter_711_stores doc) as [|st l [IHm IHs]]; [done|].
  cbn [List.filter]. destruct (kept only_toilets st); cbn [andb]; [|done].
  cbn [fmap list_fmap List.filter]. rewrite Hm, Hs.
  destruct (missing_row (canonical st)), (suspicious_row (canonical st));
    cbn [length]; split; congruence.
Qed.


(** X17. The loop is incremental: the rows written for the records read so
    far are never revised, and the counters of a stream are the sums of the
    counters of its parts. *)
Theorem export_is_incremental (only_toilets include_debug : bool)
    (first rest : list store) :
  let whole := export_loop only_toilets include_debug (first ++ rest) in
  let r1 := export_loop only_toilets include_debug first in
  let r2 := export_loop only_toilets include_debug rest in
  rows whole = rows r1 ++ rows r2 /\
  printed whole = printed r1 ++ printed r2 /\
  total (count whole) = (total (count r1) + total (count r2))%nat /\
  written (count whole) = (written (count r1) + written (count r2))%nat /\
  missing_coord (count whole)
  = (missing_coord (count r1) + missing_coord (count r2))%nat /\
  suspicious_coord (count whole)
  = (suspicious_coord (count r1) + suspicious_coord (count r2))%nat.
Proof.
  cbv zeta. rewrite !export_loop_eq.
  cbn [rows printed count total written missing_coord suspicious_coord].
  rewrite !List.filter_app, !length_app, fmap_app, replicate_add.
  repeat split; reflexivity.
Qed.

Lemma filter_fmap_sublist {A B} (f : A -> B) (p : A -> bool) (l : list A) :
  sublist (f <$> List.filter p l) (f <$> l).
Proof.
  induction l as [|x l IH]; [constructor|].
  cbn [List.filter]. destruct (p x); rewrite !fmap_cons.
  - by apply sublist_skip.
  - by apply sublist_cons.
Qed.

(** X18. The filter only leaves rows out: the rows written with the filter
    on are, in the same order, among the rows written with it off, and with
    the audit columns each of them ends with the service tag true. *)
Theorem filter_only_leaves_rows_out
    (input_xml output_csv : string) (doc : element) (include_debug : bool) :
  sublist
    (csv_rows (export_csv input_xml doc output_csv true include_debug))
    (csv_rows (export_csv input_xml doc output_csv false include_debug)) /\
  Forall (fun row => last row = Some (VBool true))
         (csv_rows (export_csv input_xml doc output_csv true true)).
Proof.
  unfold export_csv. cbn [csv_rows]. rewrite !export_loop_eq. cbn [rows].
  split.
  - assert (List.filter (kept false) (iter_711_stores doc)
            = iter_711_stores doc) as ->.
    { induction (iter_711_stores doc) as [|st l IH]; [done|].
      cbn [List.filter kept negb orb]. by rewrite IH. }
    apply filter_fmap_sublist.
  - apply Forall_fmap, Forall_forall. intros st Hin.
    apply list_elem_of_In, filter_In in Hin as [_ Hk].
    unfold compose. rewrite row_of_audited.
    unfold audit. rewrite build_location_row_eq. cbn [snd].
    assert (forall a b c d e f g h t,
               writerow debug_fields (cell <$> debug_row_of a b c d e f g h t)
               = [VStr "7-ELEVEN iMapSDKOutput"; VStr a; VStr b; VStr c;
                  VStr d; VStr e; VStr f; VStr g; VStr h; VBool t]) as ->
      by (intros; vm_compute; reflexivity).
    rewrite last_app. cbn [last].
    rewrite marker_in_strip. unfold kept in Hk. cbn [negb orb] in Hk.
    unfold tagged in Hk. by rewrite Hk.
Qed.

(** ** Standard output *)

Lemma report_shape input_xml output_csv only_toilets c :
  report input_xml output_csv only_toilets c
  = ["✅ Input XML: " +:+ input_xml;
     "✅ Output CSV: " +:+ output_csv;
     "總 GeoPosition: " +:+ pretty (total c);
     "輸出筆數: " +:+ pretty (written c) +:+ " (only_toilets="
       +:+ bool_str only_toilets +:+ ")";
     "缺少座標筆數: " +:+ pretty (missing_coord c);
     "座標可疑筆數(超出台灣範圍): " +:+ pretty (suspicious_coord c);
     separator]
    ++ (if (0 <? missing_coord c)%nat then [warning] else []).
Proof. reflexivity. Qed.

(** The warning differs from every other line that a run prints. *)
Lemma warning_is_no_other_line input_xml output_csv only_toilets c :
  warning <> separator /\
  Forall (fun line => warning <> line)
         ["✅ Input XML: " +:+ input_xml;
          "✅ Output CSV: " +:+ output_csv;
          "總 GeoPosition: " +:+ pretty (total c);
          "輸出筆數: " +:+ pretty (written c) +:+ " (only_toilets="
            +:+ bool_str only_toilets +:+ ")";
          "缺少座標筆數: " +:+ pretty (missing_coord c);
          "座標可疑筆數(超出台灣範圍): " +:+ pretty (suspicious_coord c);
          separator].
Proof.
  split; [discriminate|].
  repeat (apply Forall_cons; split; [discriminate|]). apply Forall_nil_2.
Qed.

(** X19. The warning about missing coordinates is printed exactly when the
    missing counter is positive, and then it is the last line; otherwise
    the last line is the separator. *)
Theorem warning_iff_missing
    (input_xml output_csv : string) (doc : element)
    (only_toilets include_debug : bool) :
  let o := export_csv input_xml doc output_csv only_toilets include_debug in
  let c := count (export_loop only_toilets include_debug
                              (iter_711_stores doc)) in
  (warning ∈ stdout o <-> (0 < missing_coord c)%nat) /\
  last (stdout o)
  = Some (if (0 <? missing_coord c)%nat then warning else separator).
Proof.
  cbv zeta. unfold export_csv. cbn [stdout].
  set (r := export_loop only_toilets include_debug (iter_711_stores doc)).
  rewrite report_shape.
  destruct (warning_is_no_other_line input_xml output_csv only_toilets
                                     (count r)) as [Hsep Hlines].
  split.
  - rewrite !elem_of_app. split.
    + intros [Hin|[Hin|Hin]].
      * assert (Forall (eq separator) (printed r)) as Hp.
        { subst r. rewrite export_loop_eq. cbn [printed].
          apply Forall_replicate_eq. }
        apply (proj1 (Forall_forall _ _) Hp) in Hin. by destruct Hsep.
      * by apply (proj1 (Forall_forall _ _) Hlines) in Hin.
      * destruct (0 <? missing_coord (count r))%nat eqn:E;
          [by apply Nat.ltb_lt in E | by apply elem_of_nil in Hin].
    + intros H%Nat.ltb_lt. rewrite H. right. right. apply list_elem_of_here.
  - rewrite !last_app.
    by destruct (0 <? missing_coord (count r))%nat.
Qed.

(** ** The entry point *)



(** ** White space around a raw coordinate *)

(** X22. White space around a raw coordinate never matters: a text is read
    as its trimmed form is, a text of white space alone is absent, and the
    normaliser gives the same pair for raw texts and for their trimmed
    forms. *)
Theorem surrounding_space_is_ignored (x_raw y_raw : string) :
  _parse_float (Text.strip x_raw) = _parse_float x_raw /\
  (Text.strip x_raw = "" -> _parse_float x_raw = None) /\
  _normalize_lng_lat (Text.strip x_raw) (Text.strip y_raw)
  = _normalize_lng_lat x_raw y_raw.
Proof.
  assert (forall s, _parse_float (Text.strip s) = _parse_float s) as E.
  { intros s. unfold _parse_float. by rewrite strip_idempotent. }
  split; [apply E|]. split.
  - intros H. unfold _parse_float. by rewrite H.
  - unfold _normalize_lng_lat. by rewrite !E.
Qed.

Lemma surrounding_space_is_ignored_witness :
  _parse_float "  " = None.
Proof.
  apply (proj1 (proj2 (surrounding_space_is_ignored "  " ""))).
  vm_compute. reflexivity.
Defined.
